(** * ChainGuardian backend: transaction intake, fraud alerts and statistics

    A shallow embedding of [app/main.py] (the [/api/tx] handler
    [process_transaction]) and [app/database.py] (the [Database] wrapper
    around the two MongoDB collections), followed by the properties the
    design document states about them.

    Python values are embedded as they are used by the code: dictionaries
    are insertion-ordered association lists, [float] is IEEE binary64
    (Rocq's primitive floats), [int] is [Z], [str] and [bytes] are [string].
    The collaborators the handler only calls (the ML oracle, the wall clock,
    the MongoDB server, [hashlib] and the leaves of [json.dumps]) are
    parameters of the development. *)

From Stdlib Require Import ZArith List String Ascii Bool Lia.
From Stdlib Require Import Permutation DecimalString.
From Stdlib Require Import PrimFloat SpecFloat FloatOps FloatAxioms.
From Stdlib Require Uint63.
Import ListNotations.

Set Warnings "-inexact-float,-register-all".

Local Open Scope string_scope.
Local Open Scope Z_scope.

(** ** Python values *)

Module Py.

(** The Python objects the handler manipulates: the fragment [json.dumps]
    can serialize, with [str] keys in dictionaries. *)
Inductive value : Type :=
| VNone
| VBool (b : bool)
| VInt (z : Z)
| VFloat (f : float)
| VStr (s : string)
| VList (l : list value)
| VDict (d : list (string * value)).

(** A [dict] with [str] keys, in insertion order. *)
Definition dict : Type := list (string * value).

(** [d.get(k)]: the first binding of [k]. *)
Fixpoint get (k : string) (d : dict) : option value :=
  match d with
  | [] => None
  | (k', v) :: d' => if String.eqb k k' then Some v else get k d'
  end.

Definition keys (d : dict) : list string := map fst d.

(** Truthiness of an [Optional[str]]: [None] and [''] are falsy. *)
Definition truthy (s : option string) : bool :=
  match s with
  | None => false
  | Some s' => negb (String.eqb s' "")
  end.

(** [None] or the wrapped value, for optional fields stored in a dict. *)
Definition of_option {A : Type} (inj : A -> value) (o : option A) : value :=
  match o with Some a => inj a | None => VNone end.

(** Python dictionaries have no repeated key, at any depth. *)
Fixpoint well_formed (v : value) : Prop :=
  match v with
  | VList l =>
      (fix all (l : list value) : Prop :=
         match l with [] => True | x :: l' => well_formed x /\ all l' end) l
  | VDict d =>
      NoDup (map fst d) /\
      (fix all (d : list (string * value)) : Prop :=
         match d with
         | [] => True
         | kv :: d' => well_formed (snd kv) /\ all d'
         end) d
  | _ => True
  end.

End Py.
Import Py.

(** ** Floating-point helpers ([int / int] and [round(x, 2)]) *)

Module PyFloat.

(** The integer nearest to [n / d], ties to the even one ([0 <= n], [0 < d]). *)
Definition div_half_even (n d : Z) : Z :=
  let q := n / d in
  match 2 * (n mod d) ?= d with
  | Lt => q
  | Gt => q + 1
  | Eq => if Z.even q then q else q + 1
  end.

(** The double nearest to [a / b] for [0 <= a] and [0 < b]: the quotient is
    taken with at least 64 significant bits and a sticky last bit, then
    rounded once to binary64. *)
Definition nearest_quotient (a b : Z) : float :=
  let k := Z.max 0 (64 + Z.log2 b - Z.log2 a) in
  let n := a * 2 ^ k in
  let sticky := if n mod b =? 0 then 0 else 1 in
  SF2Prim (binary_normalize 53 1024 (2 * (n / b) + sticky) (- k - 1) false).

(** [a / b] on Python [int]s with [b <> 0]: true division, correctly
    rounded. (Python refuses a quotient too large for a double; the
    aggregator divides a count by a larger one.) *)
Definition int_truediv (a b : Z) : float :=
  let neg := xorb (a <? 0) (b <? 0) in
  let q := if a =? 0 then zero else nearest_quotient (Z.abs a) (Z.abs b) in
  if neg then (- q)%float else q.

(** [round(x, 2)] on a [float]: the exact value of [x] is rounded to two
    decimal places, ties to even, and the double nearest to that decimal is
    returned; zeros, infinities and NaN are returned as they are. *)
Definition round2 (x : float) : float :=
  match Prim2SF x with
  | S754_finite s m e =>
      let n := if 0 <=? e then Zpos m * 2 ^ e * 100
               else div_half_even (Zpos m * 100) (2 ^ (- e)) in
      let r := if n =? 0 then zero else nearest_quotient n 100 in
      if s then (- r)%float else r
  | _ => x
  end.

End PyFloat.

(** ** [json.dumps(obj, sort_keys=True)] *)

Module Json.

(** [sorted(dct.items())]: a stable insertion sort on the keys, compared by
    code point. The payload is left untouched. *)
Fixpoint insert_item {A : Type} (kv : string * A) (l : list (string * A))
  : list (string * A) :=
  match l with
  | [] => [kv]
  | kv' :: l' =>
      if String.leb (fst kv) (fst kv') then kv :: l
      else kv' :: insert_item kv l'
  end.

Fixpoint sorted_items {A : Type} (l : list (string * A))
  : list (string * A) :=
  match l with
  | [] => []
  | kv :: l' => insert_item kv (sorted_items l')
  end.

Section Encoder.

(** The two leaf encoders of [json.encoder]: [float.__repr__] (with [NaN]
    and [Infinity]) and the ASCII-escaping string encoder, which also adds
    the quotes. *)
Variable floatstr : float -> string.
Variable encode_basestring_ascii : string -> string.

(** One [key: value] member, the value already encoded. *)
Definition member (kv : string * string) : string :=
  encode_basestring_ascii (fst kv) ++ ": " ++ snd kv.

(** [json.dumps(v, sort_keys=True)] with the default separators. The members
    of a dictionary are ordered by key; the ordering reads the keys only, so
    encoding the values before or after it gives the same text
    ([dumps_dict_sorted_first]). *)
Fixpoint dumps (v : value) : string :=
  match v with
  | VNone => "null"
  | VBool true => "true"
  | VBool false => "false"
  | VInt z => NilZero.string_of_int (Z.to_int z)
  | VFloat f => floatstr f
  | VStr s => encode_basestring_ascii s
  | VList l => "[" ++ String.concat ", " (map dumps l) ++ "]"
  | VDict d =>
      "{" ++ String.concat ", "
               (map member
                  (sorted_items
                     (map (fun kv => (fst kv, dumps (snd kv))) d)))
          ++ "}"
  end.

End Encoder.

(** Two values with the same content: equal leaves, lists equal member by
    member, dictionaries with the same bindings whatever the insertion order
    (Python's [==] on dictionaries). *)
Inductive same : value -> value -> Prop :=
| same_leaf v : same v v
| same_list l1 l2 : same_all l1 l2 -> same (VList l1) (VList l2)
| same_dict d1 d d2 :
    same_items d1 d -> Permutation d d2 -> same (VDict d1) (VDict d2)
with same_all : list value -> list value -> Prop :=
| same_all_nil : same_all [] []
| same_all_cons v1 v2 l1 l2 :
    same v1 v2 -> same_all l1 l2 -> same_all (v1 :: l1) (v2 :: l2)
with same_items : dict -> dict -> Prop :=
| same_items_nil : same_items [] []
| same_items_cons k v1 v2 d1 d2 :
    same v1 v2 -> same_items d1 d2 ->
    same_items ((k, v1) :: d1) ((k, v2) :: d2).

Scheme same_ind' := Induction for same Sort Prop
  with same_all_ind' := Induction for same_all Sort Prop
  with same_items_ind' := Induction for same_items Sort Prop.
Combined Scheme same_mutind from same_ind', same_all_ind', same_items_ind'.

End Json.

(** ** The world the handlers run in *)

(** What [str(e)] gives for a caught exception. *)
Definition exn : Type := string.

(** The two collections of [Database]. *)
Inductive collection : Type := Transactions | Alerts.

(** A query document of [count_documents]: field/string pairs, all of which
    must match. *)
Definition query : Type := list (string * string).

(** Calls to collaborators, in the order they are made. *)
Inductive call : Type :=
| CallNow
| CallPredict (tx_data : dict)
| CallInsert (c : collection) (doc : dict)
| CallCount (c : collection) (q : query)
| CallSha256 (payload : string).

(** The oracle's answer ([fraud_detector.predict]). *)
Record Prediction : Type := {
  risk_score : float;
  label : string;
  explanation : value;
  model_version : string;
  model_hash : string
}.

(** The collaborators. [ML_AVAILABLE] tells whether the ML engine was loaded
    and [predict] is its oracle; [now k] is the ISO text of the [k]-th clock
    reading; [insert_error] and [count_error] are the server's verdict on a
    store operation ([Some e]: the driver raises [e]); the last three are the
    library functions behind [json.dumps] and [hashlib.sha256(..).hexdigest()]. *)
Record Env : Type := {
  ML_AVAILABLE : bool;
  predict : dict -> exn + Prediction;
  now : nat -> string;
  insert_error : collection -> dict -> option exn;
  count_error : collection -> query -> option exn;
  floatstr : float -> string;
  encode_basestring_ascii : string -> string;
  sha256_hexdigest : string -> string
}.

(** The mutable part: the stored documents (oldest first), the clock readings
    consumed and the log of calls. *)
Record World : Type := {
  transactions : list dict;
  alerts : list dict;
  ticks : nat;
  log : list call
}.

Definition empty_world : World :=
  {| transactions := []; alerts := []; ticks := 0%nat; log := [] |}.

(** A computation that reads and updates the world and may raise. The world
    reached is kept when it raises. *)
Definition M (A : Type) : Type := World -> (exn + A) * World.

Definition ret {A : Type} (a : A) : M A := fun w => (inr a, w).

Definition raise {A : Type} (e : exn) : M A := fun w => (inl e, w).

Definition bind {A B : Type} (m : M A) (k : A -> M B) : M B :=
  fun w =>
    match m w with
    | (inl e, w') => (inl e, w')
    | (inr a, w') => k a w'
    end.

(** [try: m except Exception as e: h e]. *)
Definition try_except {A : Type} (m : M A) (h : exn -> M A) : M A :=
  fun w =>
    match m w with
    | (inl e, w') => h e w'
    | (inr a, w') => (inr a, w')
    end.

Declare Scope py_scope.
Delimit Scope py_scope with py.
Notation "x <- m ;; k" := (bind m (fun x => k))
  (at level 61, m at next level, right associativity) : py_scope.
Notation "m ;; k" := (bind m (fun _ => k))
  (at level 61, right associativity) : py_scope.
Local Open Scope py_scope.

Definition record_call (c : call) : M unit :=
  fun w =>
    (inr tt, {| transactions := transactions w; alerts := alerts w;
                ticks := ticks w; log := log w ++ [c] |}).

(** ** [app/database.py] *)

Module Database.

Section WithEnv.

Variable env : Env.

Definition docs (c : collection) (w : World) : list dict :=
  match c with
  | Transactions => transactions w
  | Alerts => alerts w
  end.

Definition store (c : collection) (doc : dict) (w : World) : World :=
  match c with
  | Transactions =>
      {| transactions := transactions w ++ [doc]; alerts := alerts w;
         ticks := ticks w; log := log w |}
  | Alerts =>
      {| transactions := transactions w; alerts := alerts w ++ [doc];
         ticks := ticks w; log := log w |}
  end.

(** [collection.insert_one(doc)]: the document is stored unless the server
    refuses it. (The [_id] the driver adds is not represented.) *)
Definition insert_one (c : collection) (doc : dict) : M unit :=
  record_call (CallInsert c doc) ;;
  match insert_error env c doc with
  | Some e => raise e
  | None => fun w => (inr tt, store c doc w)
  end.

(** Whether a stored field equals the queried string; an array field matches
    when one of its members does. *)
Definition field_matches (x : string) (v : option value) : bool :=
  match v with
  | Some (VStr s) => String.eqb s x
  | Some (VList l) =>
      existsb (fun m => match m with VStr s => String.eqb s x | _ => false end) l
  | _ => false
  end.

Definition matches (q : query) (doc : dict) : bool :=
  forallb (fun kx => field_matches (snd kx) (get (fst kx) doc)) q.

(** [collection.count_documents(q)]. *)
Definition count_documents (c : collection) (q : query) : M Z :=
  record_call (CallCount c q) ;;
  match count_error env c q with
  | Some e => raise e
  | None =>
      fun w => (inr (Z.of_nat (List.length (filter (matches q) (docs c w)))), w)
  end.

Definition save_transaction (tx_data : dict) : M unit :=
  try_except (insert_one Transactions tx_data) (fun e => raise e).

Definition save_alert (alert_data : dict) : M unit :=
  try_except (insert_one Alerts alert_data) (fun e => raise e).

(** [round(accuracy, 2)]: an [int] is returned as it is, a [float] is
    rounded. *)
Definition round_2 (accuracy : Z + float) : value :=
  match accuracy with
  | inl z => VInt z
  | inr f => VFloat (PyFloat.round2 f)
  end.

Definition get_statistics : M dict :=
  try_except
    (total_txs <- count_documents Transactions [] ;;
     fraud_detected <-
       count_documents Transactions [("label", "suspicious")] ;;
     active_alerts <- count_documents Alerts [("status", "active")] ;;
     let accuracy : Z + float :=
       if total_txs >? 0
       then inr (PyFloat.int_truediv (total_txs - fraud_detected) total_txs
                 * 100)%float
       else inl 0 in
     ret [("totalTx", VInt total_txs);
          ("fraudDetected", VInt fraud_detected);
          ("accuracy", round_2 accuracy);
          ("activeAlerts", VInt active_alerts)])
    (fun _ =>
       ret [("totalTx", VInt 0);
            ("fraudDetected", VInt 0);
            ("accuracy", VInt 0);
            ("activeAlerts", VInt 0)]).

End WithEnv.

End Database.

(** ** [app/main.py] *)

Module Main.

(** The validated request body ([class Transaction(BaseModel)]). *)
Record Transaction : Type := {
  txHash : string;
  from_address : string;
  to_address : string;
  amount : float;
  timestamp : option string;
  gas_price : option float;
  gas_used : option Z
}.

(** An optional field of the request: left out, or passed (possibly as
    [null]). *)
Inductive field (A : Type) : Type :=
| Omitted
| Passed (a : option A).
Arguments Omitted {A}.
Arguments Passed {A} a.

Definition with_default {A : Type} (default : option A) (f : field A)
  : option A :=
  match f with
  | Omitted => default
  | Passed a => a
  end.

(** The model's constructor: a field that is left out takes the default of
    its declaration. *)
Definition Transaction_init (txHash from_address to_address : string)
    (amount : float) (timestamp : field string) (gas_price : field float)
    (gas_used : field Z) : Transaction :=
  {| txHash := txHash;
     from_address := from_address;
     to_address := to_address;
     amount := amount;
     timestamp := with_default None timestamp;
     gas_price := with_default (Some 50.0%float) gas_price;
     gas_used := with_default (Some 21000) gas_used |}.

(** What [raise HTTPException(status_code=.., detail=..)] carries. *)
Record HTTPException : Type := {
  status_code : Z;
  detail : string
}.

(** The prediction used when the ML engine is not available. *)
Definition fallback_prediction : Prediction :=
  {| risk_score := 0.1%float;
     label := "normal";
     explanation :=
       VDict [("top_features", VList []); ("model_scores", VDict [])];
     model_version := "N/A";
     model_hash := "N/A" |}.

(** The dictionaries the handler builds. *)
Definition tx_data (tx : Transaction) (timestamp : string) : dict :=
  [("from", VStr (from_address tx));
   ("to", VStr (to_address tx));
   ("amount", VFloat (amount tx));
   ("timestamp", VStr timestamp);
   ("gas_price", of_option VFloat (gas_price tx));
   ("gas_used", of_option VInt (gas_used tx))].

Definition tx_record (tx : Transaction) (timestamp : string)
    (prediction : Prediction) (processed_at : string) : dict :=
  [("txHash", VStr (txHash tx));
   ("from", VStr (from_address tx));
   ("to", VStr (to_address tx));
   ("amount", VFloat (amount tx));
   ("timestamp", VStr timestamp);
   ("riskScore", VFloat (risk_score prediction));
   ("label", VStr (label prediction));
   ("modelVersion", VStr (model_version prediction));
   ("processed_at", VStr processed_at)].

Definition fraud_signature (tx : Transaction) (timestamp : string)
    (prediction : Prediction) : dict :=
  [("txHash", VStr (txHash tx));
   ("flaggedAddress", VStr (from_address tx));
   ("riskScore", VFloat (risk_score prediction));
   ("timestamp", VStr timestamp);
   ("modelVersion", VStr (model_version prediction));
   ("explanation", explanation prediction)].

(** [2 if risk_score >= 0.8 else 1]. *)
Definition severity (risk_score : float) : Z :=
  if (0.8 <=? risk_score)%float then 2 else 1.

Definition alert_record (tx : Transaction) (prediction : Prediction)
    (signature_hash : string) (now_iso : string) : dict :=
  [("sigHash", VStr signature_hash);
   ("txHash", VStr (txHash tx));
   ("flaggedAddress", VStr (from_address tx));
   ("riskScore", VFloat (risk_score prediction));
   ("severity", VInt (severity (risk_score prediction)));
   ("explanation", explanation prediction);
   ("timestamp", VStr now_iso);
   ("status", VStr "active")].

Definition response (tx : Transaction) (prediction : Prediction)
    (alert_registered : bool) (signature_hash : option string) : dict :=
  [("success", VBool true);
   ("txHash", VStr (txHash tx));
   ("riskScore", VFloat (risk_score prediction));
   ("label", VStr (label prediction));
   ("explanation", explanation prediction);
   ("alertRegistered", VBool alert_registered);
   ("signatureHash", of_option VStr signature_hash)].

Section WithEnv.

Variable env : Env.

(** [datetime.now().isoformat()]. *)
Definition now_isoformat : M string :=
  record_call CallNow ;;
  fun w =>
    (inr (now env (ticks w)),
     {| transactions := transactions w; alerts := alerts w;
        ticks := S (ticks w); log := log w |}).

(** [s or alt]: [alt] is evaluated only when [s] is falsy. *)
Definition or_else (s : option string) (alt : M string) : M string :=
  match s with
  | Some s' => if truthy s then ret s' else alt
  | None => alt
  end.

(** [fraud_detector.predict(tx_data)]. *)
Definition fraud_detector_predict (tx_data : dict) : M Prediction :=
  record_call (CallPredict tx_data) ;;
  match predict env tx_data with
  | inl e => raise e
  | inr prediction => ret prediction
  end.

(** [json.dumps(obj, sort_keys=True).encode()]. *)
Definition canonical_bytes (obj : dict) : string :=
  Json.dumps (floatstr env) (encode_basestring_ascii env) (VDict obj).

(** [hashlib.sha256(payload).hexdigest()]. *)
Definition sha256 (payload : string) : M string :=
  record_call (CallSha256 payload) ;;
  ret (sha256_hexdigest env payload).

(** The body of the handler's [try] block. *)
Definition process_transaction_try (tx : Transaction) : M dict :=
  timestamp <- or_else (timestamp tx) now_isoformat ;;
  let tx_data := tx_data tx timestamp in
  prediction <-
    (if ML_AVAILABLE env then fraud_detector_predict tx_data
     else ret fallback_prediction) ;;
  processed_at <- now_isoformat ;;
  Database.save_transaction env
    (tx_record tx timestamp prediction processed_at) ;;
  if String.eqb (label prediction) "suspicious" then
    signature_hash <-
      sha256 (canonical_bytes (fraud_signature tx timestamp prediction)) ;;
    now_iso <- now_isoformat ;;
    Database.save_alert env
      (alert_record tx prediction signature_hash now_iso) ;;
    ret (response tx prediction true (Some signature_hash))
  else
    ret (response tx prediction false None).

(** [POST /api/tx]: the response body, or the [HTTPException] raised. *)
Definition process_transaction (tx : Transaction) (w : World)
  : (HTTPException + dict) * World :=
  match process_transaction_try tx w with
  | (inr body, w') => (inr body, w')
  | (inl e, w') => (inl {| status_code := 500; detail := e |}, w')
  end.

(** [GET /api/stats]. *)
Definition get_stats : M dict := Database.get_statistics env.

End WithEnv.

End Main.

(** ** One run of the intake handler

    The values the handler computes on the way, as functions of the
    collaborators, the request and the world it starts in. *)

Import Main.

Section Run.

Variable env : Env.
Variable tx : Transaction.
Variable w : World.

(** The timestamp the handler works with: the caller's when it is truthy,
    the first clock reading otherwise. *)
Definition intake_timestamp : string :=
  match timestamp tx with
  | Some s => if truthy (Some s) then s else now env (ticks w)
  | None => now env (ticks w)
  end.

(** Clock readings spent on the timestamp. *)
Definition timestamp_reads : nat :=
  if truthy (timestamp tx) then 0%nat else 1%nat.

(** The assessment the handler obtains: the oracle's answer when the ML
    engine is available, the fallback otherwise. *)
Definition assessment : exn + Prediction :=
  if ML_AVAILABLE env then predict env (tx_data tx intake_timestamp)
  else inr fallback_prediction.

Definition processed_at : string := now env (ticks w + timestamp_reads).

Definition alert_time : string := now env (S (ticks w + timestamp_reads)).

Variable p : Prediction.

(** The document handed to [save_transaction]. *)
Definition transaction_document : dict :=
  tx_record tx intake_timestamp p processed_at.

(** The digest of the fraud signature. *)
Definition signature_digest : string :=
  sha256_hexdigest env
    (canonical_bytes env (fraud_signature tx intake_timestamp p)).

(** The document handed to [save_alert]. *)
Definition alert_document : dict :=
  alert_record tx p signature_digest alert_time.

(** The calls made up to and including the transaction write. *)
Definition intake_calls : list call :=
  (if truthy (timestamp tx) then [] else [CallNow])
  ++ (if ML_AVAILABLE env then [CallPredict (tx_data tx intake_timestamp)]
      else [])
  ++ [CallNow; CallInsert Transactions transaction_document].

(** The calls of the alert branch. *)
Definition alert_calls : list call :=
  [CallSha256 (canonical_bytes env (fraud_signature tx intake_timestamp p));
   CallNow;
   CallInsert Alerts alert_document].

End Run.

(** ** The exact value of a risk score *)

(** [4/5 <= x] on the exact value of a double: a positive finite double
    [m * 2^e] is compared with 4/5 by cross-multiplication, the positive
    infinity is above, and zeros, negative numbers and NaN are not. *)
Definition at_least_four_fifths (x : float) : Prop :=
  match Prim2SF x with
  | S754_finite false m e =>
      4 * 2 ^ Z.max 0 (- e) <= 5 * Zpos m * 2 ^ Z.max 0 e
  | S754_infinity false => True
  | _ => False
  end.

(** ** Sample collaborators

    Concrete collaborators on which the model is run in the examples below.
    The library functions are stand-ins: floats are written [<float>],
    strings are quoted without escapes, and a payload stands for its own
    digest. *)

Definition quote : string := String (ascii_of_nat 34) "".

Definition sample_explanation : value :=
  VDict [("top_features", VList [VStr "amount"; VStr "gas_price"]);
         ("model_scores", VDict [("rf", VFloat 0.97); ("iso", VFloat 0.91)])].

Definition sample_prediction (risk : float) (lbl : string) : Prediction :=
  {| risk_score := risk;
     label := lbl;
     explanation := sample_explanation;
     model_version := "v1";
     model_hash := "9f2c" |}.

Definition sample_env (ml : bool) (answer : exn + Prediction)
    (tx_error alert_error : option exn) : Env :=
  {| ML_AVAILABLE := ml;
     predict := fun _ => answer;
     now := fun k => "T" ++ NilZero.string_of_uint (Nat.to_uint k);
     insert_error :=
       fun c _ =>
         match c with Transactions => tx_error | Alerts => alert_error end;
     count_error := fun _ _ => None;
     floatstr := fun _ => "<float>";
     encode_basestring_ascii := fun s => quote ++ s ++ quote;
     sha256_hexdigest := fun payload => payload |}.

(** The request [{txHash: "0xabc", from: "0x1", to: "0x2", amount: 10}]. *)
Definition sample_tx : Transaction :=
  Transaction_init "0xabc" "0x1" "0x2" 10 Omitted Omitted Omitted.

(** The oracle flags every transaction as high-risk fraud; the store works. *)
Definition suspicious_env : Env :=
  sample_env true (inr (sample_prediction 0.95 "suspicious")) None None.

(** The same oracle, with a store that refuses the transaction write, and
    with a store that accepts it and refuses the alert write; the driver's
    error text is the same in both. *)
Definition tx_write_fails_env : Env :=
  sample_env true (inr (sample_prediction 0.95 "suspicious"))
    (Some "connection refused") None.

Definition alert_write_fails_env : Env :=
  sample_env true (inr (sample_prediction 0.95 "suspicious"))
    None (Some "connection refused").

(** The oracle answers "normal". *)
Definition normal_env : Env :=
  sample_env true (inr (sample_prediction 0.1 "normal")) None None.

(** The ML engine could not be loaded. *)
Definition offline_env : Env :=
  sample_env false (inl "ML engine not available") None None.

(** A request that supplies its own gas values. *)
Definition gas_tx : Transaction :=
  Transaction_init "0xabc" "0x1" "0x2" 10 Omitted
    (Passed (Some 72.5%float)) (Passed (Some 30000)).

(** A request whose timestamp is the empty string. *)
Definition blank_timestamp_tx : Transaction :=
  Transaction_init "0xabc" "0x1" "0x2" 10 (Passed (Some "")) Omitted Omitted.

(** The sample explanation with its keys inserted in the other order. *)
Definition reordered_explanation : value :=
  VDict [("model_scores", VDict [("iso", VFloat 0.91); ("rf", VFloat 0.97)]);
         ("top_features", VList [VStr "amount"; VStr "gas_price"])].

Definition reordered_prediction : Prediction :=
  {| risk_score := 0.95;
     label := "suspicious";
     explanation := reordered_explanation;
     model_version := "v1";
     model_hash := "another build" |}.

(** ** Statistics: the queries and the answers *)

Definition all_documents : query := [].

Definition labelled_suspicious : query := [("label", "suspicious")].

Definition status_active : query := [("status", "active")].

Definition count_matching (q : query) (l : list dict) : Z :=
  Z.of_nat (List.length (filter (Database.matches q) l)).

(** What [get_statistics] answers when it caught an exception. *)
Definition zero_statistics : dict :=
  [("totalTx", VInt 0);
   ("fraudDetected", VInt 0);
   ("accuracy", VInt 0);
   ("activeAlerts", VInt 0)].

(** A store of 100 transactions, 5 of them labelled suspicious, and 5 active
    alerts. *)
Definition hundred_transactions : World :=
  {| transactions :=
       repeat [("txHash", VStr "0xabc"); ("label", VStr "normal")] 95
       ++ repeat [("txHash", VStr "0xdef"); ("label", VStr "suspicious")] 5;
     alerts := repeat [("sigHash", VStr "00"); ("status", VStr "active")] 5;
     ticks := 0%nat;
     log := [] |}.

(** A store of three transactions, one of them labelled suspicious: the
    exact accuracy, 66.666..., is not a two-decimal number. *)
Definition three_transactions : World :=
  {| transactions :=
       [[("txHash", VStr "0x01"); ("label", VStr "normal")];
        [("txHash", VStr "0x02"); ("label", VStr "suspicious")];
        [("txHash", VStr "0x03"); ("label", VStr "normal")]];
     alerts := [[("sigHash", VStr "00"); ("status", VStr "active")]];
     ticks := 0%nat;
     log := [] |}.

(** ** What "rounded to two decimal places" means

    The two-decimal numbers are the [k / 100] for an integer [k]; as a
    [float], [k / 100] is the double nearest to it, which is what IEEE 754
    division of the (exact) doubles [k] and [100] yields. *)
Definition hundredths (k : Z) : float :=
  (of_uint63 (Uint63.of_Z k) / 100)%float.

(** [k / 100] is a two-decimal number nearest to the exact percentage
    [100 * (total - fraud) / total]: the two differ by at most half a
    hundredth ([total > 0]). *)
Definition nearest_percentage (total fraud k : Z) : Prop :=
  2 * Z.abs (k * total - 10000 * (total - fraud)) <= total.

(** [k / 100] is a two-decimal number nearest to the exact value of the
    double [x], for [0 <= x]. *)
Definition nearest_hundredth (x : float) (k : Z) : Prop :=
  match Prim2SF x with
  | S754_zero false => k = 0
  | S754_finite false m e =>
      2 * Z.abs (k * 2 ^ Z.max 0 (- e) - 100 * Zpos m * 2 ^ Z.max 0 e)
      <= 2 ^ Z.max 0 (- e)
  | _ => False
  end.

(** The exact value of the double [x] lies between 0 and 100. *)
Definition at_most_hundred (x : float) : Prop :=
  match Prim2SF x with
  | S754_zero false => True
  | S754_finite false m e =>
      Zpos m * 2 ^ Z.max 0 e <= 100 * 2 ^ Z.max 0 (- e)
  | _ => False
  end.

(** The accuracy [get_statistics] computes from the two counts when
    [total > 0]. *)
Definition computed_accuracy (total fraud : Z) : float :=
  PyFloat.round2 (PyFloat.int_truediv (total - fraud) total * 100)%float.

(** Decision procedures behind the two tables below. *)
Definition nearest_percentage_b (total fraud k : Z) : bool :=
  (0 <=? k) && (k <=? 10000)
  && (2 * Z.abs (k * total - 10000 * (total - fraud)) <=? total).

Definition accuracy_checked (total fraud : Z) : bool :=
  let k := 10000 * (total - fraud) / total in
  let found k :=
    nearest_percentage_b total fraud k
    && PrimFloat.Leibniz.eqb (computed_accuracy total fraud) (hundredths k) in
  found k || found (k + 1).

Definition accuracy_checked_upto (n : nat) : bool :=
  forallb (fun t =>
    forallb (fun f => accuracy_checked (Z.of_nat t) (Z.of_nat f))
            (seq 0 (S t)))
    (seq 1 n).

Definition hundredths_checked (n : nat) : bool :=
  let k := Z.of_nat n in
  PrimFloat.Leibniz.eqb
    (if k =? 0 then zero else PyFloat.nearest_quotient k 100) (hundredths k).

(** ** A sequence of intake calls *)

(** The store after the requests [txs] were posted one after the other. *)
Fixpoint intake (env : Env) (txs : list Transaction) (w : World) : World :=
  match txs with
  | [] => w
  | tx :: rest => intake env rest (snd (process_transaction env tx w))
  end.

(** Every stored alert has a stored transaction with the same hash, sender
    and risk score, labelled suspicious, and is active. *)
Definition linked (w : World) : Prop :=
  forall a, In a (alerts w) ->
    get "status" a = Some (VStr "active")
    /\ exists t,
         In t (transactions w)
         /\ get "txHash" t = get "txHash" a
         /\ get "from" t = get "flaggedAddress" a
         /\ get "riskScore" t = get "riskScore" a
         /\ get "label" t = Some (VStr "suspicious").

(** ** Reading an alert back ([get_alert_by_hash], [GET /api/alerts/{sig_hash}])

    [find_error] is the server's verdict on a read, and [id_text c k doc] is
    the text [str(doc['_id'])] of the identifier the store gave to [doc], the
    [k]-th document of collection [c]. Reads are not entered in the log. *)

Module Reads.

(** The first stored document that matches, with its position. *)
Fixpoint first_match (q : query) (k : nat) (l : list dict)
  : option (nat * dict) :=
  match l with
  | [] => None
  | doc :: l' =>
      if Database.matches q doc then Some (k, doc)
      else first_match q (S k) l'
  end.

(** [del d[key]] when the key is there. *)
Definition without (key : string) (d : dict) : dict :=
  filter (fun kv => negb (String.eqb (fst kv) key)) d.

(** A document as the server returns it, [_id] first, after
    [doc['_id'] = str(doc['_id'])]. *)
Definition with_id_text (id : string) (doc : dict) : dict :=
  ("_id", VStr id) :: without "_id" doc.

Section WithStore.

Variable find_error : collection -> query -> option exn.
Variable id_text : collection -> nat -> dict -> string.

(** [collection.find_one(q)]. *)
Definition find_one (c : collection) (q : query) : M (option (nat * dict)) :=
  match find_error c q with
  | Some e => raise e
  | None => fun w => (inr (first_match q 0 (Database.docs c w)), w)
  end.

(** [Database.get_alert_by_hash]. A document that was found is not empty
    (it has its [_id]), so [if alert:] holds for it. *)
Definition get_alert_by_hash (sig_hash : string) : M (option dict) :=
  try_except
    (alert <- find_one Alerts [("sigHash", sig_hash)] ;;
     match alert with
     | Some (k, doc) => ret (Some (with_id_text (id_text Alerts k doc) doc))
     | None => ret None
     end)
    (fun _ => ret None).

(** [GET /api/alerts/{sig_hash}]. The handler has no [try]: an exception of
    [get_alert_by_hash] would leave it as the framework's status 500. *)
Definition get_alert_detail (sig_hash : string) (w : World)
  : (HTTPException + dict) * World :=
  match get_alert_by_hash sig_hash w with
  | (inr (Some (kv :: alert)), w') => (inr (kv :: alert), w')
  | (inr _, w') =>
      (inl {| status_code := 404; detail := "Alert not found" |}, w')
  | (inl _, w') =>
      (inl {| status_code := 500; detail := "Internal Server Error" |}, w')
  end.

End WithStore.

End Reads.

(** ** [app/blockchain.py]

    The ledger is a collaborator: each of its operations answers or raises.
    The client's calls to it are kept in a log of their own. *)

Module Blockchain.

(** [Py_ISSPACE]: space, tab, line feed, vertical tab, form feed, carriage
    return. *)
Definition is_space (c : ascii) : bool :=
  let n := N_of_ascii c in
  (n =? 32)%N || ((9 <=? n)%N && (n <=? 13)%N).

(** The value of a hexadecimal digit, in either case. *)
Definition digit_value (c : ascii) : option N :=
  let n := N_of_ascii c in
  if (48 <=? n)%N && (n <=? 57)%N then Some (n - 48)%N
  else if (97 <=? n)%N && (n <=? 102)%N then Some (n - 87)%N
  else if (65 <=? n)%N && (n <=? 70)%N then Some (n - 55)%N
  else None.

(** The [ValueError] of [bytes.fromhex] for the character at [pos]. *)
Definition fromhex_error (pos : nat) : exn :=
  "non-hexadecimal number found in fromhex() arg at position "
  ++ NilZero.string_of_uint (Nat.to_uint pos).

(** [bytes.fromhex(s)] from position [pos] on: white space is skipped before
    a byte, never between its two digits. *)
Fixpoint fromhex_at (pos : nat) (s : string) : exn + string :=
  match s with
  | "" => inr ""
  | String c s' =>
      if is_space c then fromhex_at (S pos) s'
      else
        match digit_value c, s' with
        | None, _ => inl (fromhex_error pos)
        | Some _, "" => inl (fromhex_error (S pos))
        | Some top, String c' s'' =>
            match digit_value c' with
            | None => inl (fromhex_error (S pos))
            | Some bot =>
                match fromhex_at (S (S pos)) s'' with
                | inl e => inl e
                | inr bytes =>
                    inr (String (ascii_of_N (16 * top + bot)) bytes)
                end
            end
        end
  end.

(** The position of the first character that is not ASCII. *)
Fixpoint first_non_ascii (pos : nat) (s : string) : option nat :=
  match s with
  | "" => None
  | String c s' =>
      if (128 <=? N_of_ascii c)%N then Some pos
      else first_non_ascii (S pos) s'
  end.

(** [bytes.fromhex(s)]: a string that is not ASCII is refused at its first
    such character, before anything is decoded. *)
Definition fromhex (s : string) : exn + string :=
  match first_non_ascii 0 s with
  | Some pos => inl (fromhex_error pos)
  | None => fromhex_at 0 s
  end.

Definition hex_digit (n : N) : ascii :=
  if (n <? 10)%N then ascii_of_N (48 + n) else ascii_of_N (87 + n).

(** [b.hex()] on [bytes]: two lower-case digits for each byte. *)
Fixpoint hex (b : string) : string :=
  match b with
  | "" => ""
  | String c b' =>
      String (hex_digit (N_of_ascii c / 16))
        (String (hex_digit (N_of_ascii c mod 16)) (hex b'))
  end.

(** A string of lower-case hexadecimal digits, an even number of them. *)
Fixpoint lower_hex (s : string) : bool :=
  match s with
  | "" => true
  | String c "" => false
  | String c (String c' s') =>
      match digit_value c, digit_value c' with
      | Some t, Some b =>
          Ascii.eqb (hex_digit t) c && Ascii.eqb (hex_digit b) c'
          && lower_hex s'
      | _, _ => false
      end
  end.

(** The alert tuple [getAlert] returns. *)
Record OnChainAlert : Type := {
  alert_0 : string;
  alert_1 : string;
  alert_2 : Z;
  alert_3 : string;
  alert_4 : string
}.

(** The arguments of [registerAlert]. *)
Record RegisterArgs : Type := {
  arg_sig_hash : string;
  arg_flagged : string;
  arg_ipfs_uri : string;
  arg_severity : Z
}.

(** The ledger and the signing library, operation by operation.
    [registerAlert] is the local check of the arguments against the ABI;
    [wait_for_transaction_receipt] answers with the text
    [receipt['transactionHash'].hex()]. *)
Record Ledger : Type := {
  registerAlert : RegisterArgs -> option exn;
  get_transaction_count : string -> exn + Z;
  gas_price : exn + Z;
  build_transaction : RegisterArgs -> dict -> exn + dict;
  sign_transaction : dict -> string -> exn + string;
  send_raw_transaction : string -> exn + string;
  wait_for_transaction_receipt : string -> exn + string;
  getAlert : string -> exn + OnChainAlert
}.

(** [BlockchainClient] once constructed: whether the contract was loaded,
    and the signing account. *)
Record BlockchainClient : Type := {
  contract_loaded : bool;
  account_address : string;
  account_key : string
}.

Inductive ledger_call : Type :=
| LFunction (args : RegisterArgs)
| LTransactionCount (address : string)
| LGasPrice
| LBuild (args : RegisterArgs) (params : dict)
| LSign (tx : dict)
| LSend (raw : string)
| LWait (tx_hash : string)
| LGetAlert (sig_hash_bytes : string).

(** A computation of the client: it may raise and it extends the log of
    ledger calls. *)
Definition L (A : Type) : Type :=
  list ledger_call -> (exn + A) * list ledger_call.

Definition lret {A : Type} (a : A) : L A := fun l => (inr a, l).

Definition lraise {A : Type} (e : exn) : L A := fun l => (inl e, l).

Definition lbind {A B : Type} (m : L A) (k : A -> L B) : L B :=
  fun l =>
    match m l with
    | (inl e, l') => (inl e, l')
    | (inr a, l') => k a l'
    end.

(** One operation of the ledger: it is logged, then answers or raises. *)
Definition ledger {A : Type} (c : ledger_call) (answer : exn + A) : L A :=
  fun l => (answer, (l ++ [c])%list).

Definition check (c : ledger_call) (verdict : option exn) : L unit :=
  ledger c match verdict with Some e => inl e | None => inr tt end.

Section WithLedger.

Variable ldg : Ledger.
Variable self : BlockchainClient.

Definition register_alert (sig_hash flagged_address ipfs_uri : string)
    (severity : Z) : L string :=
  if negb (contract_loaded self) then lraise "Contract not initialized"
  else
    match fromhex sig_hash with
    | inl e => lraise e
    | inr sig_hash_bytes =>
        let args := {| arg_sig_hash := sig_hash_bytes;
                       arg_flagged := flagged_address;
                       arg_ipfs_uri := ipfs_uri;
                       arg_severity := severity |} in
        lbind (check (LFunction args) (registerAlert ldg args)) (fun _ =>
        lbind (ledger (LTransactionCount (account_address self))
                 (get_transaction_count ldg (account_address self)))
              (fun nonce =>
        lbind (ledger LGasPrice (gas_price ldg)) (fun price =>
        let params := [("from", VStr (account_address self));
                       ("nonce", VInt nonce);
                       ("gas", VInt 200000);
                       ("gasPrice", VInt price)] in
        lbind (ledger (LBuild args params)
                 (build_transaction ldg args params)) (fun tx =>
        lbind (ledger (LSign tx)
                 (sign_transaction ldg tx (account_key self)))
              (fun raw =>
        lbind (ledger (LSend raw) (send_raw_transaction ldg raw))
              (fun tx_hash =>
        ledger (LWait tx_hash)
          (wait_for_transaction_receipt ldg tx_hash)))))))
    end.

Definition get_alert (sig_hash : string) : L dict :=
  if negb (contract_loaded self) then lraise "Contract not initialized"
  else
    match fromhex sig_hash with
    | inl e => lraise e
    | inr sig_hash_bytes =>
        lbind (ledger (LGetAlert sig_hash_bytes) (getAlert ldg sig_hash_bytes))
              (fun alert =>
        lret [("sigHash", VStr (hex (alert_0 alert)));
              ("flagged", VStr (alert_1 alert));
              ("timestamp", VInt (alert_2 alert));
              ("ipfsURI", VStr (alert_3 alert));
              ("reporter", VStr (alert_4 alert))])
    end.

End WithLedger.

End Blockchain.

(** ** More sample collaborators *)

(** The oracle raises when it is called. *)
Definition raising_oracle_env : Env :=
  sample_env true (inl "model file missing") None None.

(** A request that carries its own timestamp. *)
Definition timestamped_tx : Transaction :=
  Transaction_init "0xabc" "0x1" "0x2" 10
    (Passed (Some "2024-05-01T10:00:00")) Omitted Omitted.

(** A store that answers every read and numbers its documents. *)
Definition sample_find_error : collection -> query -> option exn :=
  fun _ _ => None.

Definition sample_id_text : collection -> nat -> dict -> string :=
  fun _ k _ => "id" ++ NilZero.string_of_uint (Nat.to_uint k).

(** A ledger that accepts everything and keeps, for every key, an alert
    under that key. *)
Definition sample_ledger : Blockchain.Ledger :=
  {| Blockchain.registerAlert := fun _ => None;
     Blockchain.get_transaction_count := fun _ => inr 7;
     Blockchain.gas_price := inr 20;
     Blockchain.build_transaction := fun _ params => inr params;
     Blockchain.sign_transaction := fun _ _ => inr "signed";
     Blockchain.send_raw_transaction := fun _ => inr "sent";
     Blockchain.wait_for_transaction_receipt := fun _ => inr "0x5e";
     Blockchain.getAlert :=
       fun key =>
         inr {| Blockchain.alert_0 := key;
                Blockchain.alert_1 := "0x1";
                Blockchain.alert_2 := 1714557600;
                Blockchain.alert_3 := "ipfs://alert";
                Blockchain.alert_4 := "0x9" |} |}.

Definition sample_client : Blockchain.BlockchainClient :=
  {| Blockchain.contract_loaded := true;
     Blockchain.account_address := "0x9";
     Blockchain.account_key := "key" |}.

(** * Properties *)

(** ** The order on dictionary keys *)

Lemma string_leb_trans (a b c : string) :
  String.leb a b = true -> String.leb b c = true -> String.leb a c = true.
Proof.
  unfold String.leb. revert b c.
  induction a as [|x a IH]; intros [|y b] [|z c]; simpl; try congruence.
  unfold Ascii.compare.
  destruct (N.compare_spec (N_of_ascii x) (N_of_ascii y)) as [Hxy|Hxy|Hxy];
    destruct (N.compare_spec (N_of_ascii y) (N_of_ascii z)) as [Hyz|Hyz|Hyz];
    destruct (N.compare_spec (N_of_ascii x) (N_of_ascii z)) as [Hxz|Hxz|Hxz];
    try congruence; try lia.
  apply IH.
Qed.

Lemma string_leb_false (a b : string) :
  String.leb a b = false -> String.leb b a = true.
Proof.
  intros H. destruct (String.leb_total a b) as [H'|H']; congruence.
Qed.

(** ** Sorting the members of a dictionary *)

Section SortedItems.

Context {A : Type}.

Lemma insert_item_comm (x y : string * A) (l : list (string * A)) :
  fst x <> fst y ->
  Json.insert_item x (Json.insert_item y l)
  = Json.insert_item y (Json.insert_item x l).
Proof.
  intros Hxy. induction l as [|c l IH]; simpl.
  - destruct (String.leb (fst x) (fst y)) eqn:Exy,
             (String.leb (fst y) (fst x)) eqn:Eyx; try reflexivity.
    + elim Hxy. now apply String.leb_antisym.
    + apply string_leb_false in Exy. congruence.
  - destruct (String.leb (fst y) (fst c)) eqn:Eyc,
             (String.leb (fst x) (fst c)) eqn:Exc; simpl;
      rewrite ?Eyc, ?Exc.
    + destruct (String.leb (fst x) (fst y)) eqn:Exy,
               (String.leb (fst y) (fst x)) eqn:Eyx; try reflexivity.
      * elim Hxy. now apply String.leb_antisym.
      * apply string_leb_false in Exy. congruence.
    + destruct (String.leb (fst x) (fst y)) eqn:Exy.
      * rewrite (string_leb_trans _ _ _ Exy Eyc) in Exc. discriminate.
      * reflexivity.
    + destruct (String.leb (fst y) (fst x)) eqn:Eyx.
      * rewrite (string_leb_trans _ _ _ Eyx Exc) in Eyc. discriminate.
      * reflexivity.
    + now rewrite IH.
Qed.

(** With distinct keys the sorted sequence does not depend on the insertion
    order. *)
Lemma sorted_items_perm (l1 l2 : list (string * A)) :
  Permutation l1 l2 -> NoDup (map fst l1) ->
  Json.sorted_items l1 = Json.sorted_items l2.
Proof.
  induction 1 as [|x l l' _ IH|x y l|l l' l'' H1 IH1 H2 IH2]; intros Hnd.
  - reflexivity.
  - simpl. rewrite IH; [reflexivity|]. now inversion Hnd.
  - simpl. apply insert_item_comm.
    inversion Hnd as [|? ? Hin _]. subst. intros E. apply Hin. left.
    now symmetry.
  - rewrite IH1 by assumption. apply IH2.
    eapply Permutation_NoDup; [|exact Hnd]. now apply Permutation_map.
Qed.

Lemma insert_item_map {B : Type} (f : A -> B) (x : string * A)
    (l : list (string * A)) :
  Json.insert_item (fst x, f (snd x)) (map (fun kv => (fst kv, f (snd kv))) l)
  = map (fun kv => (fst kv, f (snd kv))) (Json.insert_item x l).
Proof.
  induction l as [|c l IH]; simpl; [reflexivity|].
  destruct (String.leb (fst x) (fst c)); simpl; [reflexivity|].
  now rewrite IH.
Qed.

Lemma sorted_items_map {B : Type} (f : A -> B) (l : list (string * A)) :
  Json.sorted_items (map (fun kv => (fst kv, f (snd kv))) l)
  = map (fun kv => (fst kv, f (snd kv))) (Json.sorted_items l).
Proof.
  induction l as [|x l IH]; simpl; [reflexivity|].
  rewrite IH. apply insert_item_map.
Qed.

End SortedItems.

(** ** The canonical encoding *)

Lemma well_formed_list (l : list value) :
  well_formed (VList l) <-> Forall well_formed l.
Proof.
  induction l as [|x l IH]; simpl.
  - split; [constructor|trivial].
  - split.
    + intros [Hx Hl]. constructor; [assumption|now apply IH].
    + intros H. inversion H; subst. split; [assumption|now apply IH].
Qed.

Lemma well_formed_dict (d : dict) :
  well_formed (VDict d)
  <-> NoDup (map fst d) /\ Forall (fun kv => well_formed (snd kv)) d.
Proof.
  simpl. split; intros [Hn Hd]; (split; [assumption|]); clear Hn.
  - induction d as [|kv d IH]; [constructor|].
    destruct Hd as [Hx Hd]. constructor; [assumption|now apply IH].
  - induction d as [|kv d IH]; [exact I|].
    inversion Hd; subst. split; [assumption|now apply IH].
Qed.

Section Encoding.

Variable floatstr : float -> string.
Variable encode_basestring_ascii : string -> string.

Let dumps := Json.dumps floatstr encode_basestring_ascii.
Let encoded (kv : string * value) : string * string :=
  (fst kv, dumps (snd kv)).

(** The encoder orders the members of a dictionary before it writes them. *)
Lemma dumps_dict_sorted_first (d : dict) :
  dumps (VDict d)
  = "{" ++ String.concat ", "
             (map (fun kv => encode_basestring_ascii (fst kv) ++ ": "
                             ++ dumps (snd kv))
                  (Json.sorted_items d))
        ++ "}".
Proof.
  unfold dumps. simpl. do 2 f_equal.
  rewrite (sorted_items_map (Json.dumps floatstr encode_basestring_ascii)).
  rewrite map_map. reflexivity.
Qed.

Lemma dumps_same_mut :
  (forall v1 v2, Json.same v1 v2 -> well_formed v1 -> dumps v1 = dumps v2)
  /\ (forall l1 l2, Json.same_all l1 l2 -> Forall well_formed l1 ->
      map dumps l1 = map dumps l2)
  /\ (forall d1 d2, Json.same_items d1 d2 ->
      Forall (fun kv => well_formed (snd kv)) d1 ->
      map encoded d1 = map encoded d2).
Proof.
  apply Json.same_mutind.
  - reflexivity.
  - intros l1 l2 _ IH Hwf. apply well_formed_list in Hwf.
    specialize (IH Hwf). unfold dumps in *. simpl. now rewrite IH.
  - intros d1 d d2 _ IH Hperm Hwf. apply well_formed_dict in Hwf.
    destruct Hwf as [Hnd Hwf]. specialize (IH Hwf).
    assert (Hsort : Json.sorted_items (map encoded d1)
                    = Json.sorted_items (map encoded d2)).
    { rewrite IH. apply sorted_items_perm.
      - now apply Permutation_map.
      - rewrite <- IH. rewrite map_map. exact Hnd. }
    unfold encoded, dumps in *. simpl. now rewrite Hsort.
  - reflexivity.
  - intros v1 v2 l1 l2 _ IHv _ IHl Hwf. inversion Hwf; subst. simpl.
    f_equal; auto.
  - reflexivity.
  - intros k v1 v2 d1 d2 _ IHv _ IHd Hwf. inversion Hwf; subst. simpl.
    unfold encoded at 1 3. simpl. f_equal; [f_equal|]; auto.
Qed.

(** Values with the same content have the same canonical text. *)
Lemma dumps_same (v1 v2 : value) :
  well_formed v1 -> Json.same v1 v2 -> dumps v1 = dumps v2.
Proof.
  intros Hwf Hs. now apply (proj1 dumps_same_mut).
Qed.

End Encoding.

(** ** One run of the intake handler, step by step *)

(** The handler's [try] block, step by step, once the assessment is known. *)
Lemma process_transaction_try_run (env : Env) (tx : Transaction) (w : World)
    (p : Prediction) :
  assessment env tx w = inr p ->
  process_transaction_try env tx w =
    let tr := transaction_document env tx w p in
    let ar := alert_document env tx w p in
    let t1 := S (ticks w + timestamp_reads tx) in
    let l1 := (log w ++ intake_calls env tx w p)%list in
    match insert_error env Transactions tr with
    | Some e =>
        (inl e, {| transactions := transactions w; alerts := alerts w;
                   ticks := t1; log := l1 |})
    | None =>
        if String.eqb (label p) "suspicious" then
          let l2 := (l1 ++ alert_calls env tx w p)%list in
          match insert_error env Alerts ar with
          | Some e =>
              (inl e, {| transactions := transactions w ++ [tr];
                         alerts := alerts w; ticks := S t1; log := l2 |})
          | None =>
              (inr (response tx p true (Some (signature_digest env tx w p))),
               {| transactions := transactions w ++ [tr];
                  alerts := alerts w ++ [ar]; ticks := S t1; log := l2 |})
          end
        else
          (inr (response tx p false None),
           {| transactions := transactions w ++ [tr]; alerts := alerts w;
              ticks := t1; log := l1 |})
    end.
Proof.
  unfold assessment, intake_calls, alert_calls, alert_document,
    transaction_document, signature_digest, processed_at, alert_time,
    intake_timestamp, timestamp_reads.
  unfold process_transaction_try, Database.save_transaction,
    Database.save_alert, Database.insert_one, Database.store, or_else,
    now_isoformat, fraud_detector_predict, sha256, try_except, bind, ret,
    raise, record_call.
  intros Hp. cbv zeta.
  destruct (timestamp tx) as [s|]; [destruct (truthy (Some s))|];
    destruct (ML_AVAILABLE env); cbn [transactions alerts ticks log];
    rewrite ?Hp; try (injection Hp as <-);
    repeat (first
      [ progress cbn [transactions alerts ticks log app]
      | progress rewrite ?Nat.add_0_r, ?Nat.add_1_r
      | match goal with
        | H : insert_error _ _ _ = _ |- _ => rewrite H
        end
      | match goal with
        | |- context [match insert_error ?e ?c ?d with _ => _ end] =>
            destruct (insert_error e c d) eqn:?
        end
      | match goal with
        | |- context [if String.eqb ?a ?b then _ else _] =>
            destruct (String.eqb a b)
        end ]);
    repeat rewrite <- app_assoc; cbn [app]; reflexivity.
Qed.

(** The same when the oracle raises: nothing is written. *)
Lemma process_transaction_try_oracle_error (env : Env) (tx : Transaction)
    (w : World) (e : exn) :
  assessment env tx w = inl e ->
  process_transaction_try env tx w =
    (inl e,
     {| transactions := transactions w; alerts := alerts w;
        ticks := ticks w + timestamp_reads tx;
        log := (log w ++ (if truthy (timestamp tx) then [] else [CallNow])
                      ++ [CallPredict (tx_data tx (intake_timestamp env tx w))])%list
     |}).
Proof.
  unfold assessment, intake_timestamp, timestamp_reads.
  unfold process_transaction_try, or_else, now_isoformat,
    fraud_detector_predict, bind, ret, raise, record_call.
  intros Hp.
  destruct (timestamp tx) as [s|]; [destruct (truthy (Some s))|];
    destruct (ML_AVAILABLE env); try discriminate Hp;
    cbn [transactions alerts ticks log]; rewrite Hp;
    rewrite ?Nat.add_0_r, ?Nat.add_1_r; repeat rewrite <- app_assoc;
    reflexivity.
Qed.

(** The handler answers with status 500 exactly when its [try] block raised. *)
Lemma process_transaction_wraps (env : Env) (tx : Transaction) (w : World) :
  process_transaction env tx w =
    match process_transaction_try env tx w with
    | (inr body, w') => (inr body, w')
    | (inl e, w') => (inl {| status_code := 500; detail := e |}, w')
    end.
Proof. reflexivity. Qed.

Lemma eqb_suspicious (p : Prediction) :
  label p = "suspicious" -> String.eqb (label p) "suspicious" = true.
Proof. intros ->. reflexivity. Qed.

Lemma eqb_not_suspicious (p : Prediction) :
  label p <> "suspicious" -> String.eqb (label p) "suspicious" = false.
Proof. intros H. now apply String.eqb_neq. Qed.

(** No digest is computed and no alert is written before the transaction
    write. *)
Lemma intake_calls_spec (env : Env) (tx : Transaction) (w : World)
    (p : Prediction) (c : call) :
  In c (intake_calls env tx w p) ->
  c = CallNow
  \/ (ML_AVAILABLE env = true
      /\ c = CallPredict (tx_data tx (intake_timestamp env tx w)))
  \/ c = CallInsert Transactions (transaction_document env tx w p).
Proof.
  unfold intake_calls.
  destruct (truthy (timestamp tx)); destruct (ML_AVAILABLE env); simpl;
    intuition auto.
Qed.

(** ** Severity *)

Lemma digits2_pos_bounds (m : positive) :
  2 ^ (Zpos (digits2_pos m) - 1) <= Zpos m < 2 ^ Zpos (digits2_pos m).
Proof.
  induction m as [p IH|p IH|]; simpl digits2_pos.
  - rewrite Pos2Z.inj_succ.
    replace (Z.succ (Zpos (digits2_pos p)) - 1) with (Zpos (digits2_pos p))
      by lia.
    rewrite Z.pow_succ_r by lia.
    replace (2 ^ Zpos (digits2_pos p))
      with (2 * 2 ^ (Zpos (digits2_pos p) - 1)) in *
      by (rewrite <- Z.pow_succ_r by lia; f_equal; lia).
    lia.
  - rewrite Pos2Z.inj_succ.
    replace (Z.succ (Zpos (digits2_pos p)) - 1) with (Zpos (digits2_pos p))
      by lia.
    rewrite Z.pow_succ_r by lia.
    replace (2 ^ Zpos (digits2_pos p))
      with (2 * 2 ^ (Zpos (digits2_pos p) - 1)) in *
      by (rewrite <- Z.pow_succ_r by lia; f_equal; lia).
    lia.
  - simpl. lia.
Qed.

(** The literal [0.8] is the double [7205759403792794 * 2^-53]. *)
Lemma prim2sf_four_fifths :
  Prim2SF 0.8 = S754_finite false 7205759403792794 (-53).
Proof. vm_compute. reflexivity. Qed.

(** On doubles, the comparison with the literal [0.8] decides the comparison
    of the exact value with 4/5: no double lies between 4/5 and the
    literal. *)
Lemma leb_four_fifths (r : float) :
  (0.8 <=? r)%float = true <-> at_least_four_fifths r.
Proof.
  rewrite leb_spec. unfold at_least_four_fifths.
  pose proof (Prim2SF_valid r) as Hv.
  rewrite prim2sf_four_fifths.
  destruct (Prim2SF r) as [s|[|]| |[|] m e]; unfold SFleb, SFcompare;
    try (split; [discriminate|contradiction]);
    try (split; [trivial|reflexivity]).
  cbv [valid_binary bounded canonical_mantissa fexp emin prec emax] in Hv.
  apply andb_prop in Hv. destruct Hv as [Hc _]. apply Z.eqb_eq in Hc.
  pose proof (digits2_pos_bounds m) as [Hlo Hhi].
  assert (H52 : 2 ^ 52 = 4503599627370496) by reflexivity.
  assert (H53 : 2 ^ 53 = 9007199254740992) by reflexivity.
  destruct (Z.compare_spec (-53) e) as [He|He|He].
  - subst e.
    change (PosDef.Pos.compare_cont Eq 7205759403792794 m)
      with (Pos.compare 7205759403792794 m).
    replace (Z.max 0 (- -53)) with 53 by reflexivity.
    replace (Z.max 0 (-53)) with 0 by reflexivity.
    rewrite H53, Z.pow_0_r.
    destruct (Pos.compare_spec 7205759403792794 m) as [Hm|Hm|Hm].
    + subst m. split; [intros _; clear; lia|intros _; exact eq_refl].
    + apply Pos2Z.pos_lt_pos in Hm.
      split; [intros _; clear - Hm; lia|intros _; exact eq_refl].
    + apply Pos2Z.pos_lt_pos in Hm.
      split; [intros H; discriminate H|intros H; clear - H Hm; lia].
  - split; [intros _|intros _; exact eq_refl].
    assert (Hd : Zpos (digits2_pos m) = 53) by lia.
    rewrite Hd in Hlo. replace (53 - 1) with 52 in Hlo by reflexivity.
    rewrite H52 in Hlo.
    destruct (Z.le_gt_cases 0 e) as [Hpos|Hneg].
    + rewrite (Z.max_l 0 (- e)), (Z.max_r 0 e), Z.pow_0_r by lia.
      pose proof (Z.pow_pos_nonneg 2 e ltac:(lia) Hpos). nia.
    + rewrite (Z.max_r 0 (- e)), (Z.max_l 0 e), Z.pow_0_r by lia.
      assert (Hp : 2 ^ (- e) <= 2 ^ 52) by (apply Z.pow_le_mono_r; lia).
      rewrite H52 in Hp. lia.
  - split; [discriminate|intros H; exfalso].
    rewrite (Z.max_r 0 (- e)), (Z.max_l 0 e), Z.pow_0_r in H by lia.
    assert (Hd : 2 ^ Zpos (digits2_pos m) <= 2 ^ 53)
      by (apply Z.pow_le_mono_r; lia).
    assert (Hp : 2 ^ 54 <= 2 ^ (- e)) by (apply Z.pow_le_mono_r; lia).
    replace (2 ^ 54) with (2 * 2 ^ 53) in Hp by reflexivity.
    rewrite H53 in Hd, Hp. lia.
Qed.

(** C4. The severity classifier is a total function of the risk score: it
    answers tier 2 exactly when [risk_score >= 0.8] holds, which on doubles
    is exactly when the score's value is at least 4/5, and tier 1 in every
    other case; at 0.79, 0.8, 1.0 and 0.0 it answers 1, 2, 2 and 1. *)
Theorem severity_classification :
  (forall r : float, severity r = 2 <-> (0.8 <=? r)%float = true)
  /\ (forall r : float, severity r = 2 <-> at_least_four_fifths r)
  /\ (forall r : float, severity r = 1 <-> (0.8 <=? r)%float = false)
  /\ (forall r : float, severity r = 1 \/ severity r = 2)
  /\ severity 0.79 = 1
  /\ severity 0.8 = 2
  /\ severity 1.0 = 2
  /\ severity 0.0 = 1.
Proof.
  assert (H : forall r : float,
             severity r = if (0.8 <=? r)%float then 2 else 1)
    by reflexivity.
  split; [|split; [|split; [|split]]].
  - intros r. rewrite H. destruct (0.8 <=? r)%float; split; congruence.
  - intros r. rewrite <- leb_four_fifths, H.
    destruct (0.8 <=? r)%float; split; congruence.
  - intros r. rewrite H. destruct (0.8 <=? r)%float; split; congruence.
  - intros r. rewrite H. destruct (0.8 <=? r)%float; auto.
  - repeat split; reflexivity.
Qed.

(** ** The signature digest *)

Lemma fraud_signature_same (tx1 tx2 : Transaction) (ts : string)
    (p1 p2 : Prediction) :
  txHash tx1 = txHash tx2 ->
  from_address tx1 = from_address tx2 ->
  risk_score p1 = risk_score p2 ->
  model_version p1 = model_version p2 ->
  Json.same (explanation p1) (explanation p2) ->
  Json.same (VDict (fraud_signature tx1 ts p1))
            (VDict (fraud_signature tx2 ts p2)).
Proof.
  intros H1 H2 H3 H4 H5. unfold fraud_signature.
  rewrite H1, H2, H3, H4.
  eapply Json.same_dict; [|apply Permutation_refl].
  repeat (constructor; [first [exact H5 | apply Json.same_leaf]|]).
  constructor.
Qed.

Lemma fraud_signature_well_formed (tx : Transaction) (ts : string)
    (p : Prediction) :
  well_formed (explanation p) -> well_formed (VDict (fraud_signature tx ts p)).
Proof.
  intros H. apply well_formed_dict. split.
  - simpl. repeat constructor; simpl; intuition discriminate.
  - unfold fraud_signature. repeat constructor. exact H.
Qed.

(** C2. The signature deriver is deterministic: two fraud signatures whose
    six fields are equal (the explanations as Python dictionaries, whatever
    the order their keys were inserted in) have the same canonical bytes and
    the same hex digest, in whichever world each digest is computed. *)
Theorem signature_digest_deterministic (env : Env) (tx1 tx2 : Transaction)
    (ts1 ts2 : string) (p1 p2 : Prediction) (w1 w2 : World) :
  txHash tx1 = txHash tx2 ->
  from_address tx1 = from_address tx2 ->
  risk_score p1 = risk_score p2 ->
  ts1 = ts2 ->
  model_version p1 = model_version p2 ->
  well_formed (explanation p1) ->
  Json.same (explanation p1) (explanation p2) ->
  canonical_bytes env (fraud_signature tx1 ts1 p1)
  = canonical_bytes env (fraud_signature tx2 ts2 p2)
  /\ fst (sha256 env (canonical_bytes env (fraud_signature tx1 ts1 p1)) w1)
     = fst (sha256 env (canonical_bytes env (fraud_signature tx2 ts2 p2)) w2).
Proof.
  intros H1 H2 H3 <- H4 Hwf H5.
  assert (Hbytes : canonical_bytes env (fraud_signature tx1 ts1 p1)
                   = canonical_bytes env (fraud_signature tx2 ts1 p2)).
  { unfold canonical_bytes. apply dumps_same.
    - now apply fraud_signature_well_formed.
    - now apply fraud_signature_same. }
  split; [exact Hbytes|].
  unfold sha256, bind, ret, record_call. simpl. now rewrite Hbytes.
Qed.

(** ** The alert branch *)

(** C1. When the oracle's label is "suspicious", every response the handler
    returns comes with the transaction record and the alert record both
    stored, and its [signatureHash] is the [sigHash] of the stored alert;
    the handler does return a response whenever the store accepts the two
    writes. *)
Theorem alert_invariant (env : Env) (tx : Transaction) (w : World)
    (p : Prediction) :
  assessment env tx w = inr p ->
  label p = "suspicious" ->
  (forall body w',
      process_transaction env tx w = (inr body, w') ->
      transactions w' = (transactions w ++ [transaction_document env tx w p])%list
      /\ alerts w' = (alerts w ++ [alert_document env tx w p])%list
      /\ get "signatureHash" body = Some (VStr (signature_digest env tx w p))
      /\ get "sigHash" (alert_document env tx w p)
         = Some (VStr (signature_digest env tx w p)))
  /\ (insert_error env Transactions (transaction_document env tx w p) = None ->
      insert_error env Alerts (alert_document env tx w p) = None ->
      exists body w', process_transaction env tx w = (inr body, w')).
Proof.
  intros Hp Hl. rewrite process_transaction_wraps.
  rewrite (process_transaction_try_run env tx w p Hp). cbv zeta.
  rewrite (eqb_suspicious p Hl).
  split.
  - intros body w'.
    destruct (insert_error env Transactions _); [discriminate|].
    destruct (insert_error env Alerts _); [discriminate|].
    intros H. injection H as <- <-. cbn [transactions alerts].
    repeat split; reflexivity.
  - intros -> ->. eauto.
Qed.

(** C3. When the oracle's label is not "suspicious", the handler computes
    no signature digest and writes no alert, whatever the outcome; a
    response it returns has [alertRegistered = false] and
    [signatureHash = null], and it returns one whenever the store accepts
    the transaction write. *)
Theorem no_alert_invariant (env : Env) (tx : Transaction) (w : World)
    (p : Prediction) :
  assessment env tx w = inr p ->
  label p <> "suspicious" ->
  exists out w',
    process_transaction env tx w = (out, w')
    /\ log w' = (log w ++ intake_calls env tx w p)%list
    /\ (forall payload, ~ In (CallSha256 payload) (intake_calls env tx w p))
    /\ (forall doc, ~ In (CallInsert Alerts doc) (intake_calls env tx w p))
    /\ alerts w' = alerts w
    /\ (forall body, out = inr body ->
        get "alertRegistered" body = Some (VBool false)
        /\ get "signatureHash" body = Some VNone)
    /\ (insert_error env Transactions (transaction_document env tx w p) = None ->
        out = inr (response tx p false None)).
Proof.
  intros Hp Hl. rewrite process_transaction_wraps.
  rewrite (process_transaction_try_run env tx w p Hp). cbv zeta.
  rewrite (eqb_not_suspicious p Hl).
  assert (Hsha : forall payload,
             ~ In (CallSha256 payload) (intake_calls env tx w p)).
  { intros payload Hin. apply intake_calls_spec in Hin.
    destruct Hin as [H|[[_ H]|H]]; discriminate H. }
  assert (Hal : forall doc,
             ~ In (CallInsert Alerts doc) (intake_calls env tx w p)).
  { intros doc Hin. apply intake_calls_spec in Hin.
    destruct Hin as [H|[[_ H]|H]]; discriminate H. }
  destruct (insert_error env Transactions _) as [e|];
    eexists; eexists; (split; [reflexivity|]); cbn [log alerts];
    repeat (split; [first [reflexivity | assumption]|]).
  - split; [intros body H; discriminate H | intros H; discriminate H].
  - split; [|reflexivity]. intros body H. injection H as <-.
    split; reflexivity.
Qed.

(** ** The oracle is not available *)

(** C5. With the ML engine unavailable the handler asks no oracle and works
    with the fixed assessment (risk 0.1, label "normal", an explanation with
    no features and no scores, model version "N/A"); it raises no alert, and
    the oracle's absence never makes it fail: it answers with status 500
    only when the store refuses the transaction write, and otherwise returns
    the successful response built from the fallback. *)
Theorem oracle_unavailable_fallback (env : Env) (tx : Transaction)
    (w : World) :
  ML_AVAILABLE env = false ->
  assessment env tx w = inr fallback_prediction
  /\ risk_score fallback_prediction = 0.1%float
  /\ label fallback_prediction = "normal"
  /\ explanation fallback_prediction
     = VDict [("top_features", VList []); ("model_scores", VDict [])]
  /\ model_version fallback_prediction = "N/A"
  /\ exists out w',
       process_transaction env tx w = (out, w')
       /\ (forall c, In c (log w') ->
           In c (log w) \/ c = CallNow
           \/ c = CallInsert Transactions
                    (transaction_document env tx w fallback_prediction))
       /\ alerts w' = alerts w
       /\ match insert_error env Transactions
                  (transaction_document env tx w fallback_prediction) with
          | Some e =>
              out = inl {| status_code := 500; detail := e |}
              /\ transactions w' = transactions w
          | None =>
              out = inr (response tx fallback_prediction false None)
              /\ get "success" (response tx fallback_prediction false None)
                 = Some (VBool true)
              /\ transactions w'
                 = (transactions w
                    ++ [transaction_document env tx w fallback_prediction])%list
          end.
Proof.
  intros Hml.
  assert (Hp : assessment env tx w = inr fallback_prediction).
  { unfold assessment. now rewrite Hml. }
  split; [exact Hp|]. do 4 (split; [reflexivity|]).
  rewrite process_transaction_wraps.
  rewrite (process_transaction_try_run env tx w _ Hp). cbv zeta.
  change (String.eqb (label fallback_prediction) "suspicious") with false.
  assert (Hlog : forall c,
             In c (log w ++ intake_calls env tx w fallback_prediction) ->
             In c (log w) \/ c = CallNow
             \/ c = CallInsert Transactions
                      (transaction_document env tx w fallback_prediction)).
  { intros c Hin. apply in_app_or in Hin. destruct Hin as [Hin|Hin]; [now left|].
    apply intake_calls_spec in Hin. rewrite Hml in Hin.
    destruct Hin as [H|[[H _]|H]]; [auto|discriminate H|auto]. }
  destruct (insert_error env Transactions _) as [e|];
    eexists; eexists; (split; [reflexivity|]); cbn [log alerts transactions];
    (split; [exact Hlog|]); (split; [reflexivity|]);
    repeat split; reflexivity.
Qed.

(** ** Persistence failures *)

(** C6, as the code has it. A refused alert write, after the transaction
    write was accepted, surfaces as an [HTTPException] with status 500 and
    the driver's error text as detail, exactly the form a refused
    transaction write takes; the stored transaction stays, no alert is
    stored, and the answer carries no status of its own for the partial
    failure. *)
Theorem persistence_failures_surface_alike (env : Env) (tx : Transaction)
    (w : World) (p : Prediction) :
  assessment env tx w = inr p ->
  (forall e,
      insert_error env Transactions (transaction_document env tx w p) = Some e ->
      exists w',
        process_transaction env tx w
        = (inl {| status_code := 500; detail := e |}, w')
        /\ transactions w' = transactions w
        /\ alerts w' = alerts w)
  /\ (forall e,
      label p = "suspicious" ->
      insert_error env Transactions (transaction_document env tx w p) = None ->
      insert_error env Alerts (alert_document env tx w p) = Some e ->
      exists w',
        process_transaction env tx w
        = (inl {| status_code := 500; detail := e |}, w')
        /\ transactions w'
           = (transactions w ++ [transaction_document env tx w p])%list
        /\ alerts w' = alerts w).
Proof.
  intros Hp. rewrite process_transaction_wraps.
  rewrite (process_transaction_try_run env tx w p Hp). cbv zeta.
  split.
  - intros e ->. eexists. repeat split.
  - intros e Hl -> ->. rewrite (eqb_suspicious p Hl). eexists. repeat split.
Qed.

(** ** What one call does to the collaborators *)

Lemma alert_calls_spec (env : Env) (tx : Transaction) (w : World)
    (p : Prediction) (c : call) :
  In c (alert_calls env tx w p) ->
  c = CallSha256 (canonical_bytes env
                    (fraud_signature tx (intake_timestamp env tx w) p))
  \/ c = CallNow
  \/ c = CallInsert Alerts (alert_document env tx w p).
Proof.
  unfold alert_calls. simpl. intuition auto.
Qed.

Lemma intake_calls_predict (env : Env) (tx : Transaction) (w : World)
    (p : Prediction) :
  ML_AVAILABLE env = true ->
  In (CallPredict (tx_data tx (intake_timestamp env tx w)))
     (intake_calls env tx w p).
Proof.
  intros Hml. unfold intake_calls. rewrite Hml.
  apply in_or_app. right. now left.
Qed.

(** Every call of one run, and every document it stores, is one of those
    named in [Run]. *)
Lemma process_transaction_effects (env : Env) (tx : Transaction) (w : World) :
  exists out w' calls,
    process_transaction env tx w = (out, w')
    /\ log w' = (log w ++ calls)%list
    /\ (forall d, In (CallPredict d) calls ->
        ML_AVAILABLE env = true
        /\ d = tx_data tx (intake_timestamp env tx w))
    /\ (forall doc, In (CallInsert Transactions doc) calls ->
        exists p, assessment env tx w = inr p
                  /\ doc = transaction_document env tx w p)
    /\ (forall payload, In (CallSha256 payload) calls ->
        exists p, assessment env tx w = inr p
                  /\ label p = "suspicious"
                  /\ payload
                     = canonical_bytes env
                         (fraud_signature tx (intake_timestamp env tx w) p))
    /\ (forall doc, In doc (transactions w') ->
        In doc (transactions w)
        \/ exists p, assessment env tx w = inr p
                     /\ doc = transaction_document env tx w p)
    /\ (ML_AVAILABLE env = true ->
        In (CallPredict (tx_data tx (intake_timestamp env tx w))) calls).
Proof.
  rewrite process_transaction_wraps.
  destruct (assessment env tx w) as [e|p] eqn:Hp.
  - rewrite (process_transaction_try_oracle_error env tx w e Hp).
    do 3 eexists. split; [reflexivity|]. cbn [log transactions].
    split; [reflexivity|].
    assert (Hin : forall c,
               In c ((if truthy (timestamp tx) then [] else [CallNow])
                     ++ [CallPredict (tx_data tx (intake_timestamp env tx w))]) ->
               c = CallNow
               \/ c = CallPredict (tx_data tx (intake_timestamp env tx w))).
    { intros c Hc. destruct (truthy (timestamp tx)); simpl in Hc;
        intuition auto. }
    split; [|split; [|split; [|split]]].
    + intros d H. apply Hin in H. destruct H as [H|H]; [discriminate H|].
      split; [|congruence].
      unfold assessment in Hp. destruct (ML_AVAILABLE env);
        [reflexivity|discriminate Hp].
    + intros doc H. apply Hin in H. destruct H as [H|H]; discriminate H.
    + intros payload H. apply Hin in H. destruct H as [H|H]; discriminate H.
    + intros doc H. now left.
    + intros _. apply in_or_app. right. now left.
  - rewrite (process_transaction_try_run env tx w p Hp). cbv zeta.
    assert (H1 : forall d, In (CallPredict d) (intake_calls env tx w p) ->
                 ML_AVAILABLE env = true
                 /\ d = tx_data tx (intake_timestamp env tx w)).
    { intros d H. apply intake_calls_spec in H.
      destruct H as [H|[[Hml H]|H]]; try discriminate H.
      split; [exact Hml|congruence]. }
    assert (H2 : forall doc,
                 In (CallInsert Transactions doc) (intake_calls env tx w p) ->
                 exists q, @inr exn Prediction p = inr q
                           /\ doc = transaction_document env tx w q).
    { intros doc H. apply intake_calls_spec in H.
      destruct H as [H|[[_ H]|H]]; try discriminate H.
      exists p. split; [reflexivity|congruence]. }
    assert (H3 : forall payload,
                 ~ In (CallSha256 payload) (intake_calls env tx w p)).
    { intros payload H. apply intake_calls_spec in H.
      destruct H as [H|[[_ H]|H]]; discriminate H. }
    assert (H4 : forall doc,
                 In doc (transactions w ++ [transaction_document env tx w p]) ->
                 In doc (transactions w)
                 \/ exists q, @inr exn Prediction p = inr q
                              /\ doc = transaction_document env tx w q).
    { intros doc H. apply in_app_or in H. destruct H as [H|[H|[]]];
        [now left|right]. exists p. split; [reflexivity|now symmetry]. }
    assert (H5 : ML_AVAILABLE env = true ->
                 In (CallPredict (tx_data tx (intake_timestamp env tx w)))
                    (intake_calls env tx w p))
      by apply intake_calls_predict.
    destruct (insert_error env Transactions _) as [e|].
    { do 3 eexists. split; [reflexivity|]. cbn [log transactions].
      split; [reflexivity|]. split; [exact H1|]. split; [exact H2|].
      split; [intros payload H; elim (H3 _ H)|].
      split; [intros doc H; now left|exact H5]. }
    destruct (String.eqb (label p) "suspicious") eqn:Hl.
    + apply String.eqb_eq in Hl.
      assert (H1' : forall d,
                 In (CallPredict d)
                    (intake_calls env tx w p ++ alert_calls env tx w p) ->
                 ML_AVAILABLE env = true
                 /\ d = tx_data tx (intake_timestamp env tx w)).
      { intros d H. apply in_app_or in H. destruct H as [H|H]; [auto|].
        apply alert_calls_spec in H. destruct H as [H|[H|H]]; discriminate H. }
      assert (H2' : forall doc,
                 In (CallInsert Transactions doc)
                    (intake_calls env tx w p ++ alert_calls env tx w p) ->
                 exists q, @inr exn Prediction p = inr q
                           /\ doc = transaction_document env tx w q).
      { intros d H. apply in_app_or in H. destruct H as [H|H]; [auto|].
        apply alert_calls_spec in H. destruct H as [H|[H|H]]; discriminate H. }
      assert (H3' : forall payload,
                 In (CallSha256 payload)
                    (intake_calls env tx w p ++ alert_calls env tx w p) ->
                 exists q, @inr exn Prediction p = inr q /\ label q = "suspicious"
                   /\ payload
                      = canonical_bytes env
                          (fraud_signature tx (intake_timestamp env tx w) q)).
      { intros d H. apply in_app_or in H. destruct H as [H|H];
          [elim (H3 _ H)|].
        apply alert_calls_spec in H.
        destruct H as [H|[H|H]]; try discriminate H.
        exists p. repeat split; [exact Hl|congruence]. }
      destruct (insert_error env Alerts _) as [e|];
        do 3 eexists; (split; [reflexivity|]); cbn [log transactions];
        rewrite <- app_assoc; (split; [reflexivity|]);
        (split; [exact H1'|]); (split; [exact H2'|]);
        (split; [exact H3'|]); (split; [exact H4|]);
        intros Hml; apply in_or_app; left; exact (H5 Hml).
    + do 3 eexists. split; [reflexivity|]. cbn [log transactions].
      split; [reflexivity|]. split; [exact H1|]. split; [exact H2|].
      split; [intros payload H; elim (H3 _ H)|].
      split; [exact H4|exact H5].
Qed.

(** ** Gas values *)

(** The keys of the document the handler stores for a transaction. *)
Lemma transaction_document_keys (env : Env) (tx : Transaction) (w : World)
    (p : Prediction) :
  keys (transaction_document env tx w p)
  = ["txHash"; "from"; "to"; "amount"; "timestamp"; "riskScore"; "label";
     "modelVersion"; "processed_at"].
Proof. reflexivity. Qed.

(** C7, as the code has it. The gas values of a request (the caller's when
    passed, 50.0 and 21000 when left out) are carried by the context handed
    to the oracle, under [gas_price] and [gas_used], and the oracle is handed
    that context whenever the ML engine is available; a transaction record
    the handler stores has the nine keys of [tx_record], none of them a gas
    field. *)
Theorem gas_values_reach_the_oracle_only (env : Env)
    (h f t : string) (a : float) (ts : field string) (gp : field float)
    (gu : field Z) (w : World) :
  exists out w' calls,
    process_transaction env (Transaction_init h f t a ts gp gu) w = (out, w')
    /\ log w' = (log w ++ calls)%list
    /\ (forall d, In (CallPredict d) calls ->
        get "gas_price" d
        = Some match gp with
               | Omitted => VFloat 50.0
               | Passed (Some x) => VFloat x
               | Passed None => VNone
               end
        /\ get "gas_used" d
           = Some match gu with
                  | Omitted => VInt 21000
                  | Passed (Some n) => VInt n
                  | Passed None => VNone
                  end)
    /\ (ML_AVAILABLE env = true -> exists d, In (CallPredict d) calls)
    /\ (forall doc,
        In (CallInsert Transactions doc) calls
        \/ (In doc (transactions w') /\ ~ In doc (transactions w)) ->
        keys doc
        = ["txHash"; "from"; "to"; "amount"; "timestamp"; "riskScore";
           "label"; "modelVersion"; "processed_at"]
        /\ get "gasPrice" doc = None /\ get "gasUsed" doc = None
        /\ get "gas_price" doc = None /\ get "gas_used" doc = None).
Proof.
  destruct (process_transaction_effects env
              (Transaction_init h f t a ts gp gu) w)
    as (out & w' & calls & Hrun & Hlog & Hpred & Hins & _ & Hdocs & Hml).
  exists out, w', calls. split; [exact Hrun|]. split; [exact Hlog|].
  split; [|split].
  - intros d Hd. apply Hpred in Hd. destruct Hd as [_ ->].
    split; [destruct gp as [|[x|]]|destruct gu as [|[n|]]]; reflexivity.
  - intros H. eexists. apply Hml, H.
  - assert (Hdoc : forall p,
               let doc := transaction_document env
                            (Transaction_init h f t a ts gp gu) w p in
               keys doc
               = ["txHash"; "from"; "to"; "amount"; "timestamp"; "riskScore";
                  "label"; "modelVersion"; "processed_at"]
               /\ get "gasPrice" doc = None /\ get "gasUsed" doc = None
               /\ get "gas_price" doc = None /\ get "gas_used" doc = None).
    { intros p. repeat split. }
    intros doc [H|[H Hnew]].
    + apply Hins in H. destruct H as (p & _ & ->). apply Hdoc.
    + apply Hdocs in H. destruct H as [H|(p & _ & ->)]; [elim (Hnew H)|].
      apply Hdoc.
Qed.

(** ** The timestamp default *)

(** C10. A request whose timestamp is the empty string is given the clock's
    reading: that reading is the timestamp of the context handed to the
    oracle, of every transaction record the call stores, and of the fraud
    signature that is hashed; the record is stored whenever the store
    accepts it, and the signature is hashed whenever the label is
    "suspicious" and the store accepted the record. *)
Theorem blank_timestamp_replaced (env : Env) (tx : Transaction) (w : World) :
  timestamp tx = Some "" ->
  intake_timestamp env tx w = now env (ticks w)
  /\ exists out w' calls,
       process_transaction env tx w = (out, w')
       /\ log w' = (log w ++ calls)%list
       /\ (forall d, In (CallPredict d) calls ->
           get "timestamp" d = Some (VStr (now env (ticks w))))
       /\ (forall doc,
           In (CallInsert Transactions doc) calls
           \/ (In doc (transactions w') /\ ~ In doc (transactions w)) ->
           get "timestamp" doc = Some (VStr (now env (ticks w))))
       /\ (forall payload, In (CallSha256 payload) calls ->
           exists p,
             assessment env tx w = inr p
             /\ payload
                = canonical_bytes env (fraud_signature tx (now env (ticks w)) p)
             /\ get "timestamp" (fraud_signature tx (now env (ticks w)) p)
                = Some (VStr (now env (ticks w))))
       /\ (forall p,
           assessment env tx w = inr p ->
           insert_error env Transactions (transaction_document env tx w p)
           = None ->
           transactions w'
           = (transactions w ++ [transaction_document env tx w p])%list
           /\ (label p = "suspicious" ->
               In (CallSha256
                     (canonical_bytes env
                        (fraud_signature tx (now env (ticks w)) p)))
                  calls)).
Proof.
  intros Hts.
  assert (Hit : intake_timestamp env tx w = now env (ticks w)).
  { unfold intake_timestamp. now rewrite Hts. }
  split; [exact Hit|].
  destruct (process_transaction_effects env tx w)
    as (out & w' & calls & Hrun & Hlog & Hpred & Hins & Hsha & Hdocs & _).
  exists out, w', calls. split; [exact Hrun|]. split; [exact Hlog|].
  rewrite Hit in *.
  split; [|split; [|split]].
  - intros d Hd. apply Hpred in Hd. destruct Hd as [_ ->]. reflexivity.
  - intros doc [H|[H Hnew]].
    + apply Hins in H. destruct H as (p & _ & ->).
      unfold transaction_document. now rewrite Hit.
    + apply Hdocs in H. destruct H as [H|(p & _ & ->)]; [elim (Hnew H)|].
      unfold transaction_document. now rewrite Hit.
  - intros payload H. apply Hsha in H. destruct H as (p & Hp & _ & ->).
    exists p. repeat split. exact Hp.
  - intros p Hp Hok.
    rewrite process_transaction_wraps in Hrun.
    rewrite (process_transaction_try_run env tx w p Hp) in Hrun.
    cbv zeta in Hrun. rewrite Hok in Hrun.
    destruct (String.eqb (label p) "suspicious") eqn:Hl.
    + assert (Hin : In (CallSha256
                          (canonical_bytes env
                             (fraud_signature tx (now env (ticks w)) p)))
                       (intake_calls env tx w p ++ alert_calls env tx w p)).
      { apply in_or_app. right. unfold alert_calls. rewrite Hit. now left. }
      destruct (insert_error env Alerts _);
        injection Hrun as <- <-; cbn [transactions log] in *;
        rewrite <- app_assoc in Hlog; apply app_inv_head in Hlog;
        subst calls; (split; [reflexivity|]); intros _; exact Hin.
    + injection Hrun as <- <-. cbn [transactions]. split; [reflexivity|].
      intros Hs. apply eqb_suspicious in Hs. congruence.
Qed.

(** ** Statistics *)

Lemma filter_all_documents (l : list dict) :
  filter (Database.matches all_documents) l = l.
Proof.
  induction l as [|d l IH]; simpl; [reflexivity|]. now rewrite IH.
Qed.

(** [get_statistics], count by count. *)
Lemma get_statistics_run (env : Env) (w : World) :
  exists w',
    transactions w' = transactions w
    /\ alerts w' = alerts w
    /\ Database.get_statistics env w =
       (inr match count_error env Transactions all_documents,
                  count_error env Transactions labelled_suspicious,
                  count_error env Alerts status_active with
            | None, None, None =>
                let total_txs := Z.of_nat (List.length (transactions w)) in
                let fraud_detected :=
                  count_matching labelled_suspicious (transactions w) in
                [("totalTx", VInt total_txs);
                 ("fraudDetected", VInt fraud_detected);
                 ("accuracy",
                  if total_txs >? 0
                  then VFloat
                         (PyFloat.round2
                            (PyFloat.int_truediv (total_txs - fraud_detected)
                               total_txs * 100)%float)
                  else VInt 0);
                 ("activeAlerts",
                  VInt (count_matching status_active (alerts w)))]
            | _, _, _ => zero_statistics
            end, w').
Proof.
  unfold Database.get_statistics, Database.count_documents, try_except, bind,
    ret, raise, record_call, count_matching, all_documents,
    labelled_suspicious, status_active.
  destruct (count_error env Transactions []);
    [eexists; (split; [|split]); [| |reflexivity]; reflexivity|].
  cbn [transactions alerts ticks log Database.docs].
  destruct (count_error env Transactions [("label", "suspicious")]);
    [eexists; (split; [|split]); [| |reflexivity]; reflexivity|].
  cbn [transactions alerts ticks log Database.docs].
  destruct (count_error env Alerts [("status", "active")]);
    [eexists; (split; [|split]); [| |reflexivity]; reflexivity|].
  cbn [transactions alerts ticks log Database.docs].
  change (Database.matches []) with (Database.matches all_documents).
  rewrite (filter_all_documents (transactions w)).
  destruct (Z.of_nat (List.length (transactions w)) >? 0);
    (eexists; (split; [|split]); [| |reflexivity]; reflexivity).
Qed.

Lemma count_matching_bounds (q : query) (l : list dict) :
  0 <= count_matching q l <= Z.of_nat (List.length l).
Proof.
  unfold count_matching. pose proof (filter_length_le (Database.matches q) l).
  lia.
Qed.

(** ** Rounding to two decimal places

    [div_half_even] yields a nearest integer. *)
Lemma div_half_even_nearest (n d : Z) :
  0 < d -> 2 * Z.abs (PyFloat.div_half_even n d * d - n) <= d.
Proof.
  intros Hd. unfold PyFloat.div_half_even.
  pose proof (Z.div_mod n d ltac:(lia)) as Hn.
  pose proof (Z.mod_pos_bound n d Hd) as Hr.
  set (q := n / d) in *. set (r := n mod d) in *.
  destruct (Z.compare_spec (2 * r) d) as [H|H|H];
    [destruct (Z.even q)| |]; cbv zeta; nia.
Qed.

Lemma div_half_even_bounds (n d c : Z) :
  0 < d -> 0 <= n <= c * d -> 0 <= PyFloat.div_half_even n d <= c.
Proof.
  intros Hd Hn. unfold PyFloat.div_half_even.
  pose proof (Z.div_mod n d ltac:(lia)) as Hdm.
  pose proof (Z.mod_pos_bound n d Hd) as Hr.
  assert (Hq0 : 0 <= n / d) by (apply Z.div_pos; lia).
  assert (Hqc : n / d <= c).
  { apply Z.div_le_upper_bound; lia. }
  set (q := n / d) in *. set (r := n mod d) in *. cbv zeta.
  assert (Hlt : q = c -> 2 * r < d) by nia.
  destruct (Z.compare_spec (2 * r) d) as [H|H|H];
    [destruct (Z.even q)| |]; lia.
Qed.

(** For [0 <= k <= 10000] the quotient [round2] returns for [k] hundredths
    is the double [k / 100] (checked for each [k]). *)
Lemma hundredths_table :
  forallb hundredths_checked (seq 0 (Z.to_nat 10001)) = true.
Proof. vm_compute. reflexivity. Qed.

Lemma nearest_quotient_hundredths (k : Z) :
  0 <= k <= 10000 ->
  (if k =? 0 then zero else PyFloat.nearest_quotient k 100) = hundredths k.
Proof.
  intros Hk. pose proof hundredths_table as Ht.
  rewrite forallb_forall in Ht.
  specialize (Ht (Z.to_nat k)).
  unfold hundredths_checked in Ht. rewrite Z2Nat.id in Ht by (clear - Hk; lia).
  apply FloatAxioms.Leibniz.eqb_spec. apply Ht.
  apply in_seq. clear - Hk. lia.
Qed.

(** [round(x, 2)] for [0 <= x <= 100] is a two-decimal number nearest to the
    exact value of [x]. *)
Lemma round2_within_hundred (x : float) :
  at_most_hundred x ->
  exists k, 0 <= k <= 10000 /\ nearest_hundredth x k
            /\ PyFloat.round2 x = hundredths k.
Proof.
  unfold at_most_hundred, nearest_hundredth, PyFloat.round2.
  destruct (Prim2SF x) as [[|]|[|]| |[|] m e] eqn:Hx; try contradiction.
  - intros _. exists 0. split; [lia|]. split; [reflexivity|].
    rewrite <- (SF2Prim_Prim2SF x), Hx. reflexivity.
  - intros Hle. cbv zeta.
    destruct (Z.leb_spec 0 e) as [He|He].
    + rewrite (Z.max_r 0 e), (Z.max_l 0 (- e)) in * by lia.
      change (2 ^ 0) with 1 in *.
      exists (Zpos m * 2 ^ e * 100).
      assert (0 < 2 ^ e) by (apply Z.pow_pos_nonneg; lia).
      split; [nia|]. split.
      { replace (Z.pos m * 2 ^ e * 100 * 1 - 100 * Z.pos m * 2 ^ e) with 0
          by ring.
        simpl. lia. }
      apply nearest_quotient_hundredths. nia.
    + rewrite (Z.max_l 0 e), (Z.max_r 0 (- e)) in * by lia.
      change (2 ^ 0) with 1 in *.
      assert (Hd : 0 < 2 ^ (- e)) by (apply Z.pow_pos_nonneg; lia).
      pose proof (div_half_even_bounds (Zpos m * 100) (2 ^ (- e)) 10000 Hd
                    ltac:(lia)) as Hb.
      pose proof (div_half_even_nearest (Zpos m * 100) (2 ^ (- e)) Hd) as Hn.
      exists (PyFloat.div_half_even (Zpos m * 100) (2 ^ (- e))).
      split; [exact Hb|]. split.
      * replace (100 * Zpos m * 1) with (Zpos m * 100) by lia. exact Hn.
      * apply nearest_quotient_hundredths. exact Hb.
Qed.

Lemma accuracy_checked_upto_spec (n : nat) (total fraud : Z) :
  accuracy_checked_upto n = true ->
  0 < total <= Z.of_nat n -> 0 <= fraud <= total ->
  accuracy_checked total fraud = true.
Proof.
  unfold accuracy_checked_upto. intros Hc Ht Hf.
  rewrite forallb_forall in Hc.
  specialize (Hc (Z.to_nat total) ltac:(apply in_seq; lia)).
  rewrite forallb_forall in Hc.
  specialize (Hc (Z.to_nat fraud) ltac:(apply in_seq; lia)).
  rewrite !Z2Nat.id in Hc by lia. exact Hc.
Qed.

Lemma accuracy_checked_spec (total fraud : Z) :
  accuracy_checked total fraud = true ->
  exists k, 0 <= k <= 10000 /\ nearest_percentage total fraud k
            /\ computed_accuracy total fraud = hundredths k.
Proof.
  unfold accuracy_checked. cbv zeta. intros Hc.
  apply orb_prop in Hc.
  destruct Hc as [Hc|Hc]; apply andb_prop in Hc; destruct Hc as [Hn He];
    apply FloatAxioms.Leibniz.eqb_spec in He;
    unfold nearest_percentage_b in Hn;
    apply andb_prop in Hn; destruct Hn as [Hn H3];
    apply andb_prop in Hn; destruct Hn as [H1 H2];
    apply Z.leb_le in H1, H2, H3;
    eexists; (split; [split; [exact H1|exact H2]|]);
    (split; [exact H3|exact He]).
Qed.

(** Every pair of counts with at most 150 transactions, checked one by
    one. *)
Lemma accuracy_table : accuracy_checked_upto 150 = true.
Proof. vm_compute. reflexivity. Qed.

(** With at most 150 transactions the computed accuracy is a two-decimal
    number nearest to the exact percentage. *)
Lemma computed_accuracy_nearest (total fraud : Z) :
  0 < total <= 150 -> 0 <= fraud <= total ->
  exists k, 0 <= k <= 10000 /\ nearest_percentage total fraud k
            /\ computed_accuracy total fraud = hundredths k.
Proof.
  intros Ht Hf. apply accuracy_checked_spec.
  apply (accuracy_checked_upto_spec 150 total fraud accuracy_table Ht Hf).
Qed.


(** C9. The aggregator never raises: it always returns statistics and
    leaves the store as it was; when any of the three counts fails it
    returns zero everywhere, which is also what an empty store that answers
    gives. *)
Theorem get_statistics_never_raises (env : Env) (w : World) :
  (exists stats w',
      Database.get_statistics env w = (inr stats, w')
      /\ transactions w' = transactions w
      /\ alerts w' = alerts w)
  /\ (count_error env Transactions all_documents <> None
      \/ count_error env Transactions labelled_suspicious <> None
      \/ count_error env Alerts status_active <> None ->
      fst (Database.get_statistics env w) = inr zero_statistics)
  /\ (forall (env0 : Env) (w0 : World),
      count_error env0 Transactions all_documents = None ->
      count_error env0 Transactions labelled_suspicious = None ->
      count_error env0 Alerts status_active = None ->
      transactions w0 = [] -> alerts w0 = [] ->
      fst (Database.get_statistics env0 w0) = inr zero_statistics).
Proof.
  split; [|split].
  - destruct (get_statistics_run env w) as (w' & Ht & Ha & Hrun).
    eexists. exists w'. split; [exact Hrun|]. split; assumption.
  - intros H. destruct (get_statistics_run env w) as (w' & _ & _ & Hrun).
    rewrite Hrun. cbn [fst].
    destruct (count_error env Transactions all_documents);
      [reflexivity|].
    destruct (count_error env Transactions labelled_suspicious);
      [reflexivity|].
    destruct (count_error env Alerts status_active); [reflexivity|].
    exfalso. destruct H as [H|[H|H]]; apply H; reflexivity.
  - intros env0 w0 H1 H2 H3 Ht Ha.
    destruct (get_statistics_run env0 w0) as (w' & _ & _ & Hrun).
    rewrite Hrun, H1, H2, H3, Ht, Ha. reflexivity.
Qed.

(** ** The properties on the sample collaborators *)

Lemma sample_explanation_well_formed : well_formed sample_explanation.
Proof.
  simpl. repeat split; repeat constructor; simpl; intuition discriminate.
Qed.

Lemma sample_explanation_reordered :
  Json.same sample_explanation reordered_explanation.
Proof.
  unfold sample_explanation, reordered_explanation.
  eapply Json.same_dict; [|apply perm_swap].
  constructor; [apply Json.same_leaf|].
  constructor; [|constructor].
  eapply Json.same_dict; [|apply perm_swap].
  repeat (constructor; [apply Json.same_leaf|]). constructor.
Qed.

(** A suspicious transaction on a working store: both records are stored and
    the response carries the stored alert's hash. *)
Lemma alert_invariant_witness :
  exists body w',
    process_transaction suspicious_env sample_tx empty_world = (inr body, w')
    /\ List.length (transactions w') = 1%nat
    /\ List.length (alerts w') = 1%nat
    /\ get "signatureHash" body
       = get "sigHash"
           (alert_document suspicious_env sample_tx empty_world
              (sample_prediction 0.95 "suspicious")).
Proof.
  destruct (alert_invariant suspicious_env sample_tx empty_world
              (sample_prediction 0.95 "suspicious") eq_refl eq_refl)
    as [Hret Hok].
  destruct (Hok eq_refl eq_refl) as (body & w' & Hrun).
  destruct (Hret body w' Hrun) as (Ht & Ha & Hs & Hh).
  exists body, w'. split; [exact Hrun|].
  rewrite Ht, Ha, Hs, Hh. repeat split.
Defined.

(** Two signatures of the same finding, the explanation's keys in two
    different orders and the requests differing in their gas values: one
    digest. *)
Lemma signature_digest_deterministic_witness :
  canonical_bytes suspicious_env
    (fraud_signature sample_tx "T0" (sample_prediction 0.95 "suspicious"))
  = canonical_bytes suspicious_env
      (fraud_signature gas_tx "T0" reordered_prediction)
  /\ fst (sha256 suspicious_env
            (canonical_bytes suspicious_env
               (fraud_signature sample_tx "T0"
                  (sample_prediction 0.95 "suspicious")))
            empty_world)
     = fst (sha256 suspicious_env
              (canonical_bytes suspicious_env
                 (fraud_signature gas_tx "T0" reordered_prediction))
              hundred_transactions).
Proof.
  apply (signature_digest_deterministic suspicious_env sample_tx gas_tx
           "T0" "T0" (sample_prediction 0.95 "suspicious")
           reordered_prediction empty_world hundred_transactions);
    try reflexivity.
  - exact sample_explanation_well_formed.
  - exact sample_explanation_reordered.
Defined.

(** A normal transaction on a working store: a response, and no alert. *)
Lemma no_alert_invariant_witness :
  exists out w',
    process_transaction normal_env sample_tx empty_world = (out, w')
    /\ alerts w' = []
    /\ out = inr (response sample_tx (sample_prediction 0.1 "normal")
                    false None).
Proof.
  assert (Hl : label (sample_prediction 0.1 "normal") <> "suspicious")
    by (simpl; discriminate).
  destruct (no_alert_invariant normal_env sample_tx empty_world
              (sample_prediction 0.1 "normal") eq_refl Hl)
    as (out & w' & Hrun & _ & _ & _ & Ha & _ & Hok).
  exists out, w'. split; [exact Hrun|]. split; [exact Ha|].
  apply Hok. reflexivity.
Defined.

(** Without the ML engine: the fallback response, one transaction stored. *)
Lemma oracle_unavailable_fallback_witness :
  exists out w',
    process_transaction offline_env sample_tx empty_world = (out, w')
    /\ out = inr (response sample_tx fallback_prediction false None)
    /\ List.length (transactions w') = 1%nat
    /\ alerts w' = [].
Proof.
  destruct (oracle_unavailable_fallback offline_env sample_tx empty_world
              eq_refl)
    as (_ & _ & _ & _ & _ & out & w' & Hrun & _ & Ha & Hout).
  exists out, w'. split; [exact Hrun|].
  change (insert_error offline_env Transactions
            (transaction_document offline_env sample_tx empty_world
               fallback_prediction)) with (@None exn) in Hout.
  destruct Hout as (Ho & _ & Ht). rewrite Ht.
  split; [exact Ho|]. split; [reflexivity|exact Ha].
Defined.

(** The alert write is refused: status 500, the transaction stays stored. *)
Lemma persistence_failures_surface_alike_witness :
  exists w',
    process_transaction alert_write_fails_env sample_tx empty_world
    = (inl {| status_code := 500; detail := "connection refused" |}, w')
    /\ List.length (transactions w') = 1%nat
    /\ alerts w' = [].
Proof.
  destruct (persistence_failures_surface_alike alert_write_fails_env
              sample_tx empty_world (sample_prediction 0.95 "suspicious")
              eq_refl)
    as [_ Halert].
  destruct (Halert "connection refused" eq_refl eq_refl eq_refl)
    as (w' & Hrun & Ht & Ha).
  exists w'. split; [exact Hrun|]. rewrite Ht. split; [reflexivity|exact Ha].
Defined.

(** C6, as the claim has it, fails: a refused transaction write and a
    refused alert write get the same answer, although the transaction is
    stored in the second case only. *)
Lemma partial_failure_not_distinct :
  fst (process_transaction tx_write_fails_env sample_tx empty_world)
  = fst (process_transaction alert_write_fails_env sample_tx empty_world)
  /\ transactions
       (snd (process_transaction tx_write_fails_env sample_tx empty_world))
     = []
  /\ transactions
       (snd (process_transaction alert_write_fails_env sample_tx empty_world))
     = [transaction_document alert_write_fails_env sample_tx empty_world
          (sample_prediction 0.95 "suspicious")]
  /\ alerts
       (snd (process_transaction alert_write_fails_env sample_tx empty_world))
     = [].
Proof. repeat split. Qed.

(** C7, as the claim has it, fails: the request passes gas values and the
    record stored for it has no gas field. *)
Lemma gas_fields_not_persisted :
  gas_price gas_tx = Some 72.5%float
  /\ gas_used gas_tx = Some 30000
  /\ exists body doc w',
       process_transaction normal_env gas_tx empty_world = (inr body, w')
       /\ transactions w' = [doc]
       /\ get "gasPrice" doc = None
       /\ get "gasUsed" doc = None
       /\ get "gas_price" doc = None
       /\ get "gas_used" doc = None.
Proof.
  split; [reflexivity|]. split; [reflexivity|].
  do 3 eexists. split; [reflexivity|]. cbn [transactions].
  split; [reflexivity|]. repeat split.
Qed.


(** The products the aggregator rounds are at most 100: for 95 of 100
    transactions, and for 2 of 3. *)
Example accuracy_product_within_hundred :
  at_most_hundred (PyFloat.int_truediv 95 100 * 100)%float
  /\ at_most_hundred (PyFloat.int_truediv 2 3 * 100)%float.
Proof. split; vm_compute; discriminate. Qed.

(** A request with an empty timestamp: the record stored and the signature
    hashed carry the clock's reading [T0]. *)
Lemma blank_timestamp_replaced_witness :
  timestamp blank_timestamp_tx = Some ""
  /\ exists out w' doc,
       process_transaction suspicious_env blank_timestamp_tx empty_world
       = (out, w')
       /\ transactions w' = [doc]
       /\ get "timestamp" doc = Some (VStr "T0")
       /\ In (CallSha256
                (canonical_bytes suspicious_env
                   (fraud_signature blank_timestamp_tx "T0"
                      (sample_prediction 0.95 "suspicious"))))
             (log w').
Proof.
  split; [reflexivity|].
  destruct (blank_timestamp_replaced suspicious_env blank_timestamp_tx
              empty_world eq_refl)
    as (_ & out & w' & calls & Hrun & Hlog & _ & _ & _ & Hstored).
  destruct (Hstored (sample_prediction 0.95 "suspicious") eq_refl eq_refl)
    as [Ht Hsha].
  exists out, w'. eexists. split; [exact Hrun|]. split; [exact Ht|].
  split; [reflexivity|]. rewrite Hlog. apply Hsha. reflexivity.
Defined.

(** ** Further facts about one call *)

(** An oracle that raises when it is called is not replaced by the fallback:
    the handler answers with status 500 and stores nothing. *)
Lemma oracle_error_surfaces (env : Env) (tx : Transaction) (w : World)
    (e : exn) :
  assessment env tx w = inl e ->
  exists w',
    process_transaction env tx w
    = (inl {| status_code := 500; detail := e |}, w')
    /\ transactions w' = transactions w
    /\ alerts w' = alerts w.
Proof.
  intros Hp. rewrite process_transaction_wraps.
  rewrite (process_transaction_try_oracle_error env tx w e Hp).
  eexists. repeat split.
Qed.

(** X15. The transaction write is issued before the digest is computed and
    before the alert write: for a suspicious label and an accepted
    transaction write, the call's log ends with the transaction insert, the
    digest, a clock reading and the alert insert, in this order, after
    nothing but clock readings and the oracle call. *)
Lemma transaction_write_precedes_alert_write (env : Env) (tx : Transaction)
    (w : World) (p : Prediction) :
  assessment env tx w = inr p ->
  label p = "suspicious" ->
  insert_error env Transactions (transaction_document env tx w p) = None ->
  exists before,
    log (snd (process_transaction env tx w))
    = (log w ++ before
         ++ [CallInsert Transactions (transaction_document env tx w p);
             CallSha256 (canonical_bytes env
                           (fraud_signature tx (intake_timestamp env tx w) p));
             CallNow;
             CallInsert Alerts (alert_document env tx w p)])%list
    /\ forall c, In c before -> c = CallNow \/ exists d, c = CallPredict d.
Proof.
  intros Hp Hl Hok. rewrite process_transaction_wraps.
  rewrite (process_transaction_try_run env tx w p Hp). cbv zeta.
  rewrite Hok, (eqb_suspicious p Hl).
  exists ((if truthy (timestamp tx) then [] else [CallNow])
          ++ (if ML_AVAILABLE env
              then [CallPredict (tx_data tx (intake_timestamp env tx w))]
              else [])
          ++ [CallNow])%list.
  split.
  - unfold intake_calls, alert_calls.
    destruct (insert_error env Alerts _); cbn [snd log];
      repeat rewrite <- app_assoc; reflexivity.
  - intros c Hc. destruct (truthy (timestamp tx)), (ML_AVAILABLE env);
      simpl in Hc; intuition eauto.
Qed.

(** ** The helpers on known values *)

Example int_truediv_one_third : PyFloat.int_truediv 1 3 = (1 / 3)%float.
Proof. vm_compute. reflexivity. Qed.

Example int_truediv_negative : PyFloat.int_truediv (-7) 2 = (-3.5)%float.
Proof. vm_compute. reflexivity. Qed.

Example round2_tie_to_even : PyFloat.round2 0.125 = 0.12%float.
Proof. vm_compute. reflexivity. Qed.

Example round2_below_the_tie : PyFloat.round2 2.675 = 2.67%float.
Proof. vm_compute. reflexivity. Qed.

Example round2_two_thirds :
  PyFloat.round2 (PyFloat.int_truediv 2 3 * 100)%float = 66.67%float.
Proof. vm_compute. reflexivity. Qed.

Example round2_keeps_the_sign_of_zero :
  PyFloat.round2 (-0.001)%float = (-0)%float.
Proof. vm_compute. reflexivity. Qed.

Example severity_of_nan : severity nan = 1.
Proof. reflexivity. Qed.

Example dumps_orders_the_keys :
  Json.dumps (floatstr suspicious_env) (encode_basestring_ascii suspicious_env)
    (VDict [("b", VInt 1); ("a", VList [VNone; VBool true]); ("B", VDict [])])
  = "{" ++ quote ++ "B" ++ quote ++ ": {}, "
        ++ quote ++ "a" ++ quote ++ ": [null, true], "
        ++ quote ++ "b" ++ quote ++ ": 1}".
Proof. vm_compute. reflexivity. Qed.

(** * Further properties of the code *)

(** ** What one intake call stores *)

(** The store after one call: unchanged, or one transaction more, or one
    transaction and one alert more. *)
Lemma process_transaction_store (env : Env) (tx : Transaction) (w : World) :
  let w' := snd (process_transaction env tx w) in
  (transactions w' = transactions w /\ alerts w' = alerts w)
  \/ exists p,
       assessment env tx w = inr p
       /\ insert_error env Transactions (transaction_document env tx w p) = None
       /\ transactions w'
          = (transactions w ++ [transaction_document env tx w p])%list
       /\ (alerts w' = alerts w
           \/ (label p = "suspicious"
               /\ insert_error env Alerts (alert_document env tx w p) = None
               /\ alerts w' = (alerts w ++ [alert_document env tx w p])%list)).
Proof.
  cbv zeta. rewrite process_transaction_wraps.
  destruct (assessment env tx w) as [e|p] eqn:Hp.
  - rewrite (process_transaction_try_oracle_error env tx w e Hp).
    left. split; reflexivity.
  - rewrite (process_transaction_try_run env tx w p Hp). cbv zeta.
    destruct (insert_error env Transactions _) as [e|] eqn:Ht.
    + left. split; reflexivity.
    + right. exists p. split; [reflexivity|]. split; [exact Ht|].
      destruct (String.eqb (label p) "suspicious") eqn:Hl.
      * apply String.eqb_eq in Hl.
        destruct (insert_error env Alerts _) as [e|] eqn:Ha;
          cbn [snd transactions alerts]; (split; [reflexivity|]).
        -- now left.
        -- right. repeat split; assumption.
      * cbn [snd transactions alerts]. split; [reflexivity|now left].
Qed.

Lemma intake_app (env : Env) (txs1 txs2 : list Transaction) (w : World) :
  intake env (txs1 ++ txs2) w = intake env txs2 (intake env txs1 w).
Proof.
  revert w. induction txs1 as [|tx txs1 IH]; intros w; simpl;
    [reflexivity|apply IH].
Qed.

(** X1. Intake is append-only: after any sequence of requests the records
    that were stored before are still there, in the same order and in front;
    at most one transaction per request was added, and never more alerts
    than transactions. *)
Theorem intake_is_append_only (env : Env) (txs : list Transaction)
    (w : World) :
  exists new_transactions new_alerts,
    transactions (intake env txs w)
    = (transactions w ++ new_transactions)%list
    /\ alerts (intake env txs w) = (alerts w ++ new_alerts)%list
    /\ (List.length new_alerts <= List.length new_transactions
        <= List.length txs)%nat.
Proof.
  revert w. induction txs as [|tx txs IH]; intros w.
  - exists [], []. simpl. rewrite !app_nil_r. repeat split; lia.
  - simpl intake.
    destruct (IH (snd (process_transaction env tx w)))
      as (nt & na & Ht & Ha & Hlen).
    destruct (process_transaction_store env tx w)
      as [[Et Ea]|(p & _ & _ & Et & [Ea|(_ & _ & Ea)])];
      rewrite Ht, Ha, Et, Ea.
    + exists nt, na. simpl. repeat split; lia.
    + exists (transaction_document env tx w p :: nt), na.
      rewrite <- app_assoc. simpl. repeat split; lia.
    + exists (transaction_document env tx w p :: nt),
             (alert_document env tx w p :: na).
      rewrite <- !app_assoc. simpl. repeat split; lia.
Qed.

Lemma linked_step (env : Env) (tx : Transaction) (w : World) :
  linked w -> linked (snd (process_transaction env tx w)).
Proof.
  intros Hw.
  destruct (process_transaction_store env tx w)
    as [[Et Ea]|(p & _ & _ & Et & [Ea|(Hl & _ & Ea)])];
    unfold linked; rewrite Et, Ea.
  - exact Hw.
  - intros a Ha. destruct (Hw a Ha) as (Hs & t & Hin & Ht).
    split; [exact Hs|]. exists t. split; [|exact Ht].
    apply in_or_app. now left.
  - intros a Ha. apply in_app_or in Ha. destruct Ha as [Ha|[<-|[]]].
    + destruct (Hw a Ha) as (Hs & t & Hin & Ht).
      split; [exact Hs|]. exists t. split; [|exact Ht].
      apply in_or_app. now left.
    + split; [reflexivity|].
      exists (transaction_document env tx w p).
      split; [apply in_or_app; right; now left|].
      repeat split. simpl. now rewrite Hl.
Qed.

(** X2. Alerts stay linked to transactions: if every stored alert is active
    and has a stored transaction with the same hash, sender and risk score
    that is labelled suspicious, this is still so after any sequence of
    intake calls, whatever the oracle answers and whichever writes the
    store refuses. *)
Theorem intake_keeps_alerts_linked (env : Env) (txs : list Transaction)
    (w : World) :
  linked w -> linked (intake env txs w).
Proof.
  revert w. induction txs as [|tx txs IH]; intros w Hw; simpl;
    [exact Hw|].
  apply IH. now apply linked_step.
Qed.

Lemma count_matching_app (q : query) (l1 l2 : list dict) :
  count_matching q (l1 ++ l2) = count_matching q l1 + count_matching q l2.
Proof.
  unfold count_matching. rewrite filter_app, length_app. lia.
Qed.

Lemma balanced_step (env : Env) (tx : Transaction) (w : World) :
  count_matching status_active (alerts w)
  <= count_matching labelled_suspicious (transactions w) ->
  count_matching status_active
    (alerts (snd (process_transaction env tx w)))
  <= count_matching labelled_suspicious
       (transactions (snd (process_transaction env tx w))).
Proof.
  intros Hw.
  destruct (process_transaction_store env tx w)
    as [[Et Ea]|(p & _ & _ & Et & [Ea|(Hl & _ & Ea)])];
    rewrite Et, Ea, ?count_matching_app.
  - exact Hw.
  - pose proof (count_matching_bounds labelled_suspicious
                  [transaction_document env tx w p]). lia.
  - assert (H1 : count_matching status_active [alert_document env tx w p]
                 = 1) by reflexivity.
    assert (H2 : count_matching labelled_suspicious
                   [transaction_document env tx w p] = 1).
    { unfold count_matching, labelled_suspicious. simpl. now rewrite Hl. }
    lia.
Qed.

(** X3. The statistics of a store filled by intake calls are ordered: when
    there are no more active alerts than suspicious transactions to begin
    with (as in an empty store), then after any sequence of intake calls
    [get_statistics] reports [0 <= activeAlerts <= fraudDetected <= totalTx]. *)
Theorem statistics_after_intake (env : Env) (txs : list Transaction)
    (w : World) :
  count_matching status_active (alerts w)
  <= count_matching labelled_suspicious (transactions w) ->
  count_error env Transactions all_documents = None ->
  count_error env Transactions labelled_suspicious = None ->
  count_error env Alerts status_active = None ->
  exists total fraud active accuracy w',
    Database.get_statistics env (intake env txs w)
    = (inr [("totalTx", VInt total);
            ("fraudDetected", VInt fraud);
            ("accuracy", accuracy);
            ("activeAlerts", VInt active)], w')
    /\ 0 <= active <= fraud
    /\ fraud <= total.
Proof.
  intros Hw H1 H2 H3.
  assert (Hb : count_matching status_active (alerts (intake env txs w))
               <= count_matching labelled_suspicious
                    (transactions (intake env txs w))).
  { revert w Hw. induction txs as [|tx txs IH]; intros w Hw; simpl;
      [exact Hw|]. apply IH. now apply balanced_step. }
  destruct (get_statistics_run env (intake env txs w)) as (w' & _ & _ & Hrun).
  rewrite H1, H2, H3 in Hrun. cbv zeta in Hrun.
  do 4 eexists. exists w'. split; [exact Hrun|].
  pose proof (count_matching_bounds status_active
                (alerts (intake env txs w))).
  pose proof (count_matching_bounds labelled_suspicious
                (transactions (intake env txs w))).
  lia.
Qed.

(** ** Repeated requests *)

Lemma truthy_intake_timestamp (env : Env) (tx : Transaction) (w1 w2 : World) :
  truthy (timestamp tx) = true ->
  intake_timestamp env tx w1 = intake_timestamp env tx w2.
Proof.
  unfold intake_timestamp. destruct (timestamp tx) as [s|]; intros H;
    [now rewrite H|discriminate H].
Qed.

Lemma truthy_assessment (env : Env) (tx : Transaction) (w1 w2 : World) :
  truthy (timestamp tx) = true ->
  assessment env tx w1 = assessment env tx w2.
Proof.
  intros H. unfold assessment.
  now rewrite (truthy_intake_timestamp env tx w1 w2 H).
Qed.

(** A suspicious transaction on a store that accepts both writes. *)
Lemma process_transaction_both_stored (env : Env) (tx : Transaction)
    (w : World) (p : Prediction) :
  assessment env tx w = inr p ->
  label p = "suspicious" ->
  insert_error env Transactions (transaction_document env tx w p) = None ->
  insert_error env Alerts (alert_document env tx w p) = None ->
  fst (process_transaction env tx w)
  = inr (response tx p true (Some (signature_digest env tx w p)))
  /\ transactions (snd (process_transaction env tx w))
     = (transactions w ++ [transaction_document env tx w p])%list
  /\ alerts (snd (process_transaction env tx w))
     = (alerts w ++ [alert_document env tx w p])%list.
Proof.
  intros Hp Hl Ht Ha. rewrite process_transaction_wraps.
  rewrite (process_transaction_try_run env tx w p Hp). cbv zeta.
  rewrite Ht, (eqb_suspicious p Hl), Ha. repeat split.
Qed.

(** X4. Alerts are not deduplicated: when the same request, carrying its own
    timestamp, is posted twice and the oracle flags it, two transaction
    records and two alert records are stored, and the two alerts have the
    same [sigHash]. *)
Theorem repeated_request_duplicates_alert (env : Env) (tx : Transaction)
    (w : World) (p : Prediction) :
  truthy (timestamp tx) = true ->
  assessment env tx w = inr p ->
  label p = "suspicious" ->
  (forall c doc, insert_error env c doc = None) ->
  exists t1 t2 a1 a2,
    transactions (intake env [tx; tx] w) = (transactions w ++ [t1; t2])%list
    /\ alerts (intake env [tx; tx] w) = (alerts w ++ [a1; a2])%list
    /\ get "txHash" t1 = Some (VStr (txHash tx))
    /\ get "txHash" t2 = Some (VStr (txHash tx))
    /\ get "sigHash" a1 = Some (VStr (signature_digest env tx w p))
    /\ get "sigHash" a2 = Some (VStr (signature_digest env tx w p)).
Proof.
  intros Hts Hp Hl Hok. simpl intake.
  set (w1 := snd (process_transaction env tx w)).
  destruct (process_transaction_both_stored env tx w p Hp Hl
              (Hok _ _) (Hok _ _)) as (_ & Ht1 & Ha1).
  assert (Hp1 : assessment env tx w1 = inr p)
    by (rewrite (truthy_assessment env tx w1 w Hts); exact Hp).
  destruct (process_transaction_both_stored env tx w1 p Hp1 Hl
              (Hok _ _) (Hok _ _)) as (_ & Ht2 & Ha2).
  exists (transaction_document env tx w p), (transaction_document env tx w1 p),
         (alert_document env tx w p), (alert_document env tx w1 p).
  rewrite Ht2, Ha2. fold w1 in Ht1, Ha1. rewrite Ht1, Ha1, <- !app_assoc.
  repeat split.
  unfold alert_document, signature_digest. simpl.
  now rewrite (truthy_intake_timestamp env tx w1 w Hts).
Qed.

(** ** Failures before the alert branch *)

(** X5. An oracle that raises when it is called is not replaced by the
    fallback: the handler answers 500 with the oracle's error text and
    stores nothing. What it did before is exactly this: one clock reading
    when the request carries no usable timestamp and none otherwise, then
    the one oracle call; no write and no digest. This only happens when the
    ML engine was loaded. *)
Theorem failing_oracle_is_not_replaced (env : Env) (tx : Transaction)
    (w : World) (e : exn) :
  assessment env tx w = inl e ->
  ML_AVAILABLE env = true
  /\ exists w',
       process_transaction env tx w
       = (inl {| status_code := 500; detail := e |}, w')
       /\ transactions w' = transactions w
       /\ alerts w' = alerts w
       /\ log w'
          = (log w
             ++ (if truthy (timestamp tx) then [] else [CallNow])
             ++ [CallPredict (tx_data tx (intake_timestamp env tx w))])%list
       /\ ticks w'
          = (ticks w + (if truthy (timestamp tx) then 0 else 1))%nat.
Proof.
  intros Hp. split.
  - unfold assessment in Hp. destruct (ML_AVAILABLE env);
      [reflexivity|discriminate Hp].
  - rewrite process_transaction_wraps.
    rewrite (process_transaction_try_oracle_error env tx w e Hp).
    eexists. split; [reflexivity|]. cbn [transactions alerts log ticks].
    do 3 (split; [reflexivity|]).
    unfold timestamp_reads. reflexivity.
Qed.

(** X6. A refused transaction write ends the call: the handler answers 500
    with the store's error text, nothing is stored, and no digest is
    computed and no alert write attempted, even for a suspicious label. *)
Theorem refused_transaction_stops_the_call (env : Env) (tx : Transaction)
    (w : World) (p : Prediction) (e : exn) :
  assessment env tx w = inr p ->
  insert_error env Transactions (transaction_document env tx w p) = Some e ->
  exists w',
    process_transaction env tx w
    = (inl {| status_code := 500; detail := e |}, w')
    /\ transactions w' = transactions w
    /\ alerts w' = alerts w
    /\ log w' = (log w ++ intake_calls env tx w p)%list
    /\ (forall payload, ~ In (CallSha256 payload) (intake_calls env tx w p))
    /\ (forall doc, ~ In (CallInsert Alerts doc) (intake_calls env tx w p)).
Proof.
  intros Hp Ht. rewrite process_transaction_wraps.
  rewrite (process_transaction_try_run env tx w p Hp). cbv zeta. rewrite Ht.
  eexists. split; [reflexivity|]. cbn [transactions alerts log].
  do 3 (split; [reflexivity|]).
  split; intros x Hin; apply intake_calls_spec in Hin;
    destruct Hin as [H|[[_ H]|H]]; discriminate H.
Qed.

(** ** The timestamp in all three cases *)

(** X7. The timestamp a call works with is the caller's when it is a
    non-empty string and the clock's reading when it is absent or empty;
    the context handed to the oracle, every transaction record the call
    stores and the fraud signature that is hashed all carry it. *)
Theorem stored_timestamp (env : Env) (tx : Transaction) (w : World) :
  exists out w' calls,
    process_transaction env tx w = (out, w')
    /\ log w' = (log w ++ calls)%list
    /\ forall t,
         t = match timestamp tx with
             | Some s => if String.eqb s "" then now env (ticks w) else s
             | None => now env (ticks w)
             end ->
         (forall d, In (CallPredict d) calls ->
            get "timestamp" d = Some (VStr t))
         /\ (forall doc,
               In (CallInsert Transactions doc) calls
               \/ (In doc (transactions w') /\ ~ In doc (transactions w)) ->
               get "timestamp" doc = Some (VStr t))
         /\ (forall payload, In (CallSha256 payload) calls ->
               exists p,
                 assessment env tx w = inr p
                 /\ payload = canonical_bytes env (fraud_signature tx t p)).
Proof.
  destruct (process_transaction_effects env tx w)
    as (out & w' & calls & Hrun & Hlog & Hpred & Hins & Hsha & Hdocs & _).
  exists out, w', calls. split; [exact Hrun|]. split; [exact Hlog|].
  intros t Ht.
  assert (Hit : intake_timestamp env tx w = t).
  { subst t. unfold intake_timestamp, truthy.
    destruct (timestamp tx) as [s|]; [|reflexivity].
    destruct (String.eqb s ""); reflexivity. }
  split; [|split].
  - intros d Hd. apply Hpred in Hd. destruct Hd as [_ ->]. now rewrite Hit.
  - intros doc [H|[H Hnew]].
    + apply Hins in H. destruct H as (p & _ & ->).
      unfold transaction_document. now rewrite Hit.
    + apply Hdocs in H. destruct H as [H|(p & _ & ->)]; [elim (Hnew H)|].
      unfold transaction_document. now rewrite Hit.
  - intros payload H. apply Hsha in H. destruct H as (p & Hp & _ & ->).
    exists p. rewrite Hit. split; [exact Hp|reflexivity].
Qed.

(** ** What a successful response tells *)

(** X8. A response with [success] is returned only after the transaction was
    stored, and it reports what was stored: its hash, risk score and label
    are those of the stored transaction; [alertRegistered] is true exactly
    when the call stored an alert, whose [sigHash] is then the response's
    [signatureHash], and otherwise [signatureHash] is null. *)
Theorem success_response_reflects_store (env : Env) (tx : Transaction)
    (w : World) (body : dict) (w' : World) :
  process_transaction env tx w = (inr body, w') ->
  get "success" body = Some (VBool true)
  /\ (exists t,
        transactions w' = (transactions w ++ [t])%list
        /\ get "txHash" body = get "txHash" t
        /\ get "riskScore" body = get "riskScore" t
        /\ get "label" body = get "label" t)
  /\ ((get "alertRegistered" body = Some (VBool true)
       /\ exists a,
            alerts w' = (alerts w ++ [a])%list
            /\ get "signatureHash" body = get "sigHash" a
            /\ get "txHash" body = get "txHash" a)
      \/ (get "alertRegistered" body = Some (VBool false)
          /\ get "signatureHash" body = Some VNone
          /\ alerts w' = alerts w)).
Proof.
  rewrite process_transaction_wraps.
  destruct (assessment env tx w) as [e|p] eqn:Hp.
  - rewrite (process_transaction_try_oracle_error env tx w e Hp).
    discriminate.
  - rewrite (process_transaction_try_run env tx w p Hp). cbv zeta.
    destruct (insert_error env Transactions _); [discriminate|].
    destruct (String.eqb (label p) "suspicious").
    + destruct (insert_error env Alerts _); [discriminate|].
      intros H. injection H as <- <-. cbn [transactions alerts].
      split; [reflexivity|]. split.
      * eexists. repeat split.
      * left. split; [reflexivity|]. eexists. repeat split.
    + intros H. injection H as <- <-. cbn [transactions alerts].
      split; [reflexivity|]. split.
      * eexists. repeat split.
      * right. repeat split.
Qed.

(** ** Reading an alert back *)

Lemma first_match_none (q : query) (k : nat) (l : list dict) :
  Reads.first_match q k l = None
  <-> forall doc, In doc l -> Database.matches q doc = false.
Proof.
  revert k. induction l as [|d l IH]; intros k; simpl.
  - split; [intros _ doc []|reflexivity].
  - destruct (Database.matches q d) eqn:Hd.
    + split; [discriminate|]. intros H.
      rewrite (H d (or_introl eq_refl)) in Hd. discriminate Hd.
    + rewrite IH. split.
      * intros H doc [<-|Hin]; [exact Hd|now apply H].
      * intros H doc Hin. apply H. now right.
Qed.

Lemma first_match_some (q : query) (k j : nat) (l : list dict) (doc : dict) :
  Reads.first_match q k l = Some (j, doc) ->
  In doc l /\ Database.matches q doc = true.
Proof.
  revert k. induction l as [|d l IH]; intros k; simpl; [discriminate|].
  destruct (Database.matches q d) eqn:Hd.
  - intros H. injection H as _ <-. split; [now left|exact Hd].
  - intros H. destruct (IH _ H) as [Hin Hm]. split; [now right|exact Hm].
Qed.

Lemma first_match_last (q : query) (k : nat) (l : list dict) (doc : dict) :
  (forall old, In old l -> Database.matches q old = false) ->
  Database.matches q doc = true ->
  Reads.first_match q k (l ++ [doc]) = Some ((k + List.length l)%nat, doc).
Proof.
  revert k. induction l as [|d l IH]; intros k Hl Hd; simpl.
  - rewrite Hd. now rewrite Nat.add_0_r.
  - rewrite (Hl d (or_introl eq_refl)).
    rewrite IH; [|intros old Hin; apply Hl; now right|exact Hd].
    f_equal. f_equal. lia.
Qed.

Lemma get_with_id_text (key id : string) (doc : dict) :
  key <> "_id" -> get key (Reads.with_id_text id doc) = get key doc.
Proof.
  intros Hk. unfold Reads.with_id_text. cbn [get].
  destruct (String.eqb_spec key "_id") as [E|_]; [elim (Hk E)|].
  unfold Reads.without. induction doc as [|[k v] doc IH]; simpl;
    [reflexivity|].
  destruct (String.eqb_spec k "_id") as [->|Hne]; simpl.
  - destruct (String.eqb_spec key "_id") as [E|_]; [elim (Hk E)|exact IH].
  - destruct (String.eqb key k); [reflexivity|exact IH].
Qed.

(** [get_alert_by_hash] and the handler, outcome by outcome. *)
Lemma get_alert_detail_run (find_error : collection -> query -> option exn)
    (id_text : collection -> nat -> dict -> string) (sig_hash : string)
    (w : World) :
  Reads.get_alert_detail find_error id_text sig_hash w =
    (match find_error Alerts [("sigHash", sig_hash)],
           Reads.first_match [("sigHash", sig_hash)] 0 (alerts w) with
     | None, Some (k, doc) =>
         inr (Reads.with_id_text (id_text Alerts k doc) doc)
     | _, _ => inl {| status_code := 404; detail := "Alert not found" |}
     end, w).
Proof.
  unfold Reads.get_alert_detail, Reads.get_alert_by_hash, Reads.find_one,
    try_except, bind, ret, raise.
  destruct (find_error Alerts [("sigHash", sig_hash)]); [reflexivity|].
  cbn [Database.docs].
  destruct (Reads.first_match [("sigHash", sig_hash)] 0 (alerts w))
    as [[k doc]|]; reflexivity.
Qed.

(** X9. The handler function [get_alert_detail] never changes the store and
    the only exception it raises is [HTTPException] with status 404: it
    raises it exactly when the read fails or no stored alert has the hash,
    so a failing store looks like a missing alert; otherwise it returns a
    stored alert that matches the hash, with its identifier as text. (What
    it returns is handed to the web framework; how that value is encoded
    into the HTTP response is not part of this statement.) *)
Theorem alert_lookup_outcomes (find_error : collection -> query -> option exn)
    (id_text : collection -> nat -> dict -> string) (sig_hash : string)
    (w : World) :
  snd (Reads.get_alert_detail find_error id_text sig_hash w) = w
  /\ (fst (Reads.get_alert_detail find_error id_text sig_hash w)
      = inl {| status_code := 404; detail := "Alert not found" |}
      <-> find_error Alerts [("sigHash", sig_hash)] <> None
          \/ forall doc, In doc (alerts w) ->
               Database.matches [("sigHash", sig_hash)] doc = false)
  /\ (forall e,
        fst (Reads.get_alert_detail find_error id_text sig_hash w) = inl e ->
        status_code e = 404)
  /\ (forall body,
        fst (Reads.get_alert_detail find_error id_text sig_hash w) = inr body ->
        exists k doc,
          In doc (alerts w)
          /\ Database.matches [("sigHash", sig_hash)] doc = true
          /\ body = Reads.with_id_text (id_text Alerts k doc) doc).
Proof.
  rewrite get_alert_detail_run. cbn [fst snd].
  split; [reflexivity|].
  destruct (find_error Alerts [("sigHash", sig_hash)]) as [e|].
  - split; [|split].
    + split; [intros _; left; discriminate|reflexivity].
    + intros e' H. injection H as <-. reflexivity.
    + discriminate.
  - destruct (Reads.first_match [("sigHash", sig_hash)] 0 (alerts w))
      as [[k doc]|] eqn:Hf.
    + destruct (first_match_some _ _ _ _ _ Hf) as [Hin Hm].
      split; [|split].
      * split; [discriminate|]. intros [H|H]; [now elim H|].
        rewrite (H doc Hin) in Hm. discriminate Hm.
      * discriminate.
      * intros body H. injection H as <-. exists k, doc. repeat split;
          assumption.
    + split; [|split].
      * split; [|reflexivity]. intros _. right.
        now apply (first_match_none _ 0).
      * intros e' H. injection H as <-. reflexivity.
      * discriminate.
Qed.

(** X10. An alert that was stored can be read back: after a suspicious
    transaction was processed and both writes were accepted, the lookup of
    the response's [signatureHash] finds an alert (no 404) when the read
    answers; when no earlier alert had that hash, it returns the alert the
    call stored, with its [sigHash] and [txHash], and the store's
    identifier as text in front. *)
Theorem stored_alert_is_found (env : Env)
    (find_error : collection -> query -> option exn)
    (id_text : collection -> nat -> dict -> string)
    (tx : Transaction) (w : World) (p : Prediction) :
  assessment env tx w = inr p ->
  label p = "suspicious" ->
  insert_error env Transactions (transaction_document env tx w p) = None ->
  insert_error env Alerts (alert_document env tx w p) = None ->
  find_error Alerts [("sigHash", signature_digest env tx w p)] = None ->
  (exists body,
     fst (Reads.get_alert_detail find_error id_text
            (signature_digest env tx w p)
            (snd (process_transaction env tx w))) = inr body
     /\ get "_id" body <> None)
  /\ ((forall old, In old (alerts w) ->
         Database.matches [("sigHash", signature_digest env tx w p)] old
         = false) ->
      exists body,
        fst (Reads.get_alert_detail find_error id_text
               (signature_digest env tx w p)
               (snd (process_transaction env tx w))) = inr body
        /\ body = Reads.with_id_text
                    (id_text Alerts (List.length (alerts w))
                       (alert_document env tx w p))
                    (alert_document env tx w p)
        /\ get "sigHash" body = Some (VStr (signature_digest env tx w p))
        /\ get "txHash" body = Some (VStr (txHash tx))
        /\ get "status" body = Some (VStr "active")).
Proof.
  intros Hp Hl Ht Ha Hf.
  destruct (process_transaction_both_stored env tx w p Hp Hl Ht Ha)
    as (_ & _ & Hal).
  rewrite get_alert_detail_run, Hf, Hal. cbn [fst].
  assert (Hm : Database.matches
                 [("sigHash", signature_digest env tx w p)]
                 (alert_document env tx w p) = true).
  { unfold Database.matches, alert_document, alert_record. simpl.
    now rewrite String.eqb_refl. }
  split.
  - destruct (Reads.first_match _ 0 (alerts w ++ [alert_document env tx w p]))
      as [[k doc]|] eqn:Hfm.
    + eexists. split; [reflexivity|]. simpl. discriminate.
    + exfalso. rewrite first_match_none in Hfm.
      rewrite (Hfm (alert_document env tx w p)) in Hm; [discriminate Hm|].
      apply in_or_app. right. now left.
  - intros Hnew. rewrite (first_match_last _ 0 _ _ Hnew Hm).
    eexists. split; [reflexivity|]. split; [reflexivity|].
    rewrite !get_with_id_text by discriminate. repeat split.
Qed.

(** ** Hexadecimal text and bytes *)

Import Blockchain.

Lemma nibble_cases (n : N) :
  (n < 16)%N ->
  n = 0%N \/ n = 1%N \/ n = 2%N \/ n = 3%N \/ n = 4%N \/ n = 5%N
  \/ n = 6%N \/ n = 7%N \/ n = 8%N \/ n = 9%N \/ n = 10%N \/ n = 11%N
  \/ n = 12%N \/ n = 13%N \/ n = 14%N \/ n = 15%N.
Proof. lia. Qed.

Lemma hex_digit_spec (n : N) :
  (n < 16)%N ->
  digit_value (hex_digit n) = Some n
  /\ is_space (hex_digit n) = false
  /\ (128 <=? N_of_ascii (hex_digit n))%N = false.
Proof.
  intros H. apply nibble_cases in H.
  repeat (destruct H as [->|H]; [repeat split|]). subst n. repeat split.
Qed.

Lemma digit_value_lt (c : ascii) (n : N) :
  digit_value c = Some n -> (n < 16)%N.
Proof.
  unfold digit_value. set (m := N_of_ascii c).
  destruct ((48 <=? m) && (m <=? 57))%N eqn:H1;
    [|destruct ((97 <=? m) && (m <=? 102))%N eqn:H2;
      [|destruct ((65 <=? m) && (m <=? 70))%N eqn:H3]];
    intros H; inversion H; subst n;
    match goal with
    | Hb : (_ && _)%bool = true |- _ =>
        apply andb_prop in Hb; destruct Hb as [Hlo Hhi];
        apply N.leb_le in Hlo; apply N.leb_le in Hhi; lia
    end.
Qed.

Lemma byte_nibbles (c : ascii) :
  (N_of_ascii c / 16 < 16)%N /\ (N_of_ascii c mod 16 < 16)%N
  /\ ascii_of_N (16 * (N_of_ascii c / 16) + N_of_ascii c mod 16) = c.
Proof.
  pose proof (N_ascii_bounded c) as Hb.
  split; [apply N.Div0.div_lt_upper_bound; lia|].
  split; [apply N.mod_lt; lia|].
  rewrite <- N.div_mod by lia. apply ascii_N_embedding.
Qed.

Lemma nibbles_byte (t b : N) :
  (t < 16)%N -> (b < 16)%N ->
  (N_of_ascii (ascii_of_N (16 * t + b)) / 16 = t)%N
  /\ (N_of_ascii (ascii_of_N (16 * t + b)) mod 16 = b)%N.
Proof.
  intros Ht Hb. rewrite N_ascii_embedding by lia.
  apply nibble_cases in Ht. apply nibble_cases in Hb.
  repeat (destruct Ht as [->|Ht]);
    repeat (destruct Hb as [->|Hb]); subst; split; reflexivity.
Qed.

Lemma fromhex_at_hex (b : string) (pos : nat) :
  fromhex_at pos (hex b) = inr b.
Proof.
  revert pos. induction b as [|c b IH]; intros pos; [reflexivity|].
  destruct (byte_nibbles c) as (Hhi & Hlo & Hc).
  destruct (hex_digit_spec _ Hhi) as (Hv1 & Hs1 & _).
  destruct (hex_digit_spec _ Hlo) as (Hv2 & _ & _).
  cbn [hex fromhex_at]. rewrite Hs1, Hv1, Hv2, IH, Hc. reflexivity.
Qed.

Lemma first_non_ascii_hex (b : string) (pos : nat) :
  first_non_ascii pos (hex b) = None.
Proof.
  revert pos. induction b as [|c b IH]; intros pos; [reflexivity|].
  destruct (byte_nibbles c) as (Hhi & Hlo & _).
  destruct (hex_digit_spec _ Hhi) as (_ & _ & H1).
  destruct (hex_digit_spec _ Hlo) as (_ & _ & H2).
  cbn [hex first_non_ascii]. rewrite H1, H2. apply IH.
Qed.

(** Decoding the text of a byte string gives the bytes back. *)
Lemma fromhex_hex (b : string) : fromhex (hex b) = inr b.
Proof.
  unfold fromhex. rewrite first_non_ascii_hex. apply fromhex_at_hex.
Qed.

Lemma lower_hex_hex (b : string) : lower_hex (hex b) = true.
Proof.
  induction b as [|c b IH]; [reflexivity|].
  destruct (byte_nibbles c) as (Hhi & Hlo & _).
  destruct (hex_digit_spec _ Hhi) as (Hv1 & _ & _).
  destruct (hex_digit_spec _ Hlo) as (Hv2 & _ & _).
  cbn [hex lower_hex]. rewrite Hv1, Hv2, !Ascii.eqb_refl, IH. reflexivity.
Qed.

(** A string of lower-case digits decodes, and the text of its bytes is the
    string itself. *)
Lemma lower_hex_decodes (n : nat) (s : string) :
  (String.length s <= n)%nat ->
  lower_hex s = true ->
  forall pos,
    first_non_ascii pos s = None
    /\ exists b,
         fromhex_at pos s = inr b
         /\ hex b = s
         /\ String.length s = (2 * String.length b)%nat.
Proof.
  revert s. induction n as [|n IH]; intros s Hlen Hs pos.
  - destruct s; [|simpl in Hlen; lia]. split; [reflexivity|].
    exists "". repeat split.
  - destruct s as [|c [|c' s']]; [split; [reflexivity|]; exists "";
      repeat split|discriminate Hs|].
    cbn [lower_hex] in Hs.
    destruct (digit_value c) as [t|] eqn:Ht; [|discriminate Hs].
    destruct (digit_value c') as [b0|] eqn:Hb; [|discriminate Hs].
    apply andb_prop in Hs. destruct Hs as [Hs Hrest].
    apply andb_prop in Hs. destruct Hs as [Hc Hc'].
    apply Ascii.eqb_eq in Hc. apply Ascii.eqb_eq in Hc'.
    pose proof (digit_value_lt _ _ Ht) as Htl.
    pose proof (digit_value_lt _ _ Hb) as Hbl.
    destruct (hex_digit_spec _ Htl) as (_ & Hsp & Ha1).
    destruct (hex_digit_spec _ Hbl) as (_ & _ & Ha2).
    rewrite Hc in Hsp, Ha1. rewrite Hc' in Ha2.
    simpl in Hlen.
    destruct (IH s' ltac:(lia) Hrest (S (S pos))) as (Hna & b & Hdec & Hhex & Hl).
    split.
    + cbn [first_non_ascii]. now rewrite Ha1, Ha2.
    + exists (String (ascii_of_N (16 * t + b0)) b).
      cbn [fromhex_at]. rewrite Hsp, Ht, Hb, Hdec.
      split; [reflexivity|].
      destruct (nibbles_byte t b0 Htl Hbl) as [Hq Hr].
      cbn [hex]. rewrite Hq, Hr, Hc, Hc', Hhex.
      split; [reflexivity|]. simpl. lia.
Qed.

Lemma lower_hex_fromhex (s : string) :
  lower_hex s = true ->
  exists b,
    fromhex s = inr b /\ hex b = s
    /\ String.length s = (2 * String.length b)%nat.
Proof.
  intros Hs.
  destruct (lower_hex_decodes (String.length s) s (le_n _) Hs 0%nat)
    as (Hna & b & Hdec & Hhex & Hl).
  exists b. unfold fromhex. rewrite Hna. repeat split; assumption.
Qed.

(** ** The ledger client *)

Lemma app_cons_neq {A : Type} (l r : list A) (x : A) :
  (l ++ x :: r)%list <> l.
Proof.
  intros H. apply (f_equal (@List.length A)) in H.
  rewrite length_app in H. simpl in H. lia.
Qed.

(** Once the hash is decoded, the first operation is the contract function
    on the decoded bytes and the other arguments. *)
Lemma register_alert_calls (ldg : Ledger) (self : BlockchainClient)
    (sig_hash flagged_address ipfs_uri : string) (severity : Z)
    (log : list ledger_call) (b : string) :
  contract_loaded self = true ->
  fromhex sig_hash = inr b ->
  exists calls,
    snd (register_alert ldg self sig_hash flagged_address ipfs_uri severity
           log)
    = (log ++ LFunction {| arg_sig_hash := b;
                           arg_flagged := flagged_address;
                           arg_ipfs_uri := ipfs_uri;
                           arg_severity := severity |} :: calls)%list.
Proof.
  intros Hc Hb. unfold register_alert. rewrite Hc, Hb. cbn [negb].
  unfold lbind, check, ledger, lret.
  destruct (registerAlert ldg _); [exists []; reflexivity|].
  destruct (get_transaction_count ldg _);
    [eexists; cbn [snd]; rewrite <- app_assoc; reflexivity|].
  destruct (gas_price ldg);
    [eexists; cbn [snd]; rewrite <- !app_assoc; reflexivity|].
  destruct (build_transaction ldg _ _);
    [eexists; cbn [snd]; rewrite <- !app_assoc; reflexivity|].
  destruct (sign_transaction ldg _ _);
    [eexists; cbn [snd]; rewrite <- !app_assoc; reflexivity|].
  destruct (send_raw_transaction ldg _);
    [eexists; cbn [snd]; rewrite <- !app_assoc; reflexivity|].
  eexists; cbn [snd]; rewrite <- !app_assoc; reflexivity.
Qed.

(** X11. The client contacts the ledger only with a loaded contract and a
    hash that decodes: [register_alert] and [get_alert] leave the ledger
    untouched exactly when the contract is missing or [sig_hash] is not
    hexadecimal, raising "Contract not initialized" in the first case and
    the decoder's error in the second. *)
Theorem ledger_is_contacted_only_with_valid_input (ldg : Ledger)
    (self : BlockchainClient) (sig_hash flagged_address ipfs_uri : string)
    (severity : Z) (log : list ledger_call) :
  (snd (register_alert ldg self sig_hash flagged_address ipfs_uri severity
          log) = log
   <-> contract_loaded self = false \/ exists e, fromhex sig_hash = inl e)
  /\ (snd (get_alert ldg self sig_hash log) = log
      <-> contract_loaded self = false \/ exists e, fromhex sig_hash = inl e)
  /\ (contract_loaded self = false ->
      fst (register_alert ldg self sig_hash flagged_address ipfs_uri
             severity log) = inl "Contract not initialized"
      /\ fst (get_alert ldg self sig_hash log)
         = inl "Contract not initialized")
  /\ (forall e,
      contract_loaded self = true -> fromhex sig_hash = inl e ->
      fst (register_alert ldg self sig_hash flagged_address ipfs_uri
             severity log) = inl e
      /\ fst (get_alert ldg self sig_hash log) = inl e).
Proof.
  destruct (contract_loaded self) eqn:Hc.
  - destruct (fromhex sig_hash) as [e|b] eqn:Hb.
    + unfold register_alert, get_alert. rewrite Hc, Hb. cbn [negb].
      unfold lraise. cbn [fst snd].
      split; [split; [intros _; right; eauto|reflexivity]|].
      split; [split; [intros _; right; eauto|reflexivity]|].
      split; [discriminate|].
      intros e' _ H. injection H as <-. split; reflexivity.
    + destruct (register_alert_calls ldg self sig_hash flagged_address
                  ipfs_uri severity log b Hc Hb) as (calls & Hcalls).
      rewrite Hcalls. unfold get_alert. rewrite Hc, Hb.
      unfold lbind, ledger, lret. cbn [negb].
      split; [|split; [|split]].
      * split; [intros H; elim (app_cons_neq _ _ _ H)|].
        intros [H|[e H]]; discriminate H.
      * split.
        -- destruct (getAlert ldg b); cbn [snd]; intros H;
             elim (app_cons_neq _ _ _ H).
        -- intros [H|[e H]]; discriminate H.
      * discriminate.
      * intros e _ H. discriminate H.
  - unfold register_alert, get_alert. rewrite Hc. cbn [negb].
    unfold lraise. cbn [fst snd].
    split; [split; [intros _; now left|reflexivity]|].
    split; [split; [intros _; now left|reflexivity]|].
    split; [intros _; split; reflexivity|].
    intros e H. discriminate H.
Qed.

(** X12. The hash read from the ledger is the hash that was asked for: for
    a [sig_hash] of lower-case hexadecimal digits and a ledger that keeps
    the alert under the key it is asked for, [get_alert] returns a record
    whose [sigHash] is [sig_hash], after one ledger call. *)
Theorem get_alert_returns_queried_hash (ldg : Ledger)
    (self : BlockchainClient) (sig_hash : string) (log : list ledger_call)
    (b : string) (alert : OnChainAlert) :
  contract_loaded self = true ->
  lower_hex sig_hash = true ->
  fromhex sig_hash = inr b ->
  getAlert ldg b = inr alert ->
  alert_0 alert = b ->
  exists record,
    get_alert ldg self sig_hash log = (inr record, (log ++ [LGetAlert b])%list)
    /\ get "sigHash" record = Some (VStr sig_hash)
    /\ get "flagged" record = Some (VStr (alert_1 alert))
    /\ get "reporter" record = Some (VStr (alert_4 alert)).
Proof.
  intros Hc Hs Hb Ha H0.
  destruct (lower_hex_fromhex sig_hash Hs) as (b' & Hb' & Hhex & _).
  assert (b' = b) by congruence. subst b'.
  unfold get_alert. rewrite Hc, Hb. unfold lbind, ledger, lret. cbn [negb].
  rewrite Ha. eexists. split; [reflexivity|].
  cbn. rewrite H0, Hhex. repeat split.
Qed.

(** X13. The hash [get_alert] returns can be handed back to the client:
    whatever the ledger answered, the returned [sigHash] consists of
    lower-case hexadecimal digits and decodes to the key of the alert the
    ledger returned. *)
Theorem get_alert_hash_decodes (ldg : Ledger) (self : BlockchainClient)
    (sig_hash : string) (log : list ledger_call) (record : dict) :
  fst (get_alert ldg self sig_hash log) = inr record ->
  exists h b alert,
    get "sigHash" record = Some (VStr h)
    /\ lower_hex h = true
    /\ fromhex sig_hash = inr b
    /\ getAlert ldg b = inr alert
    /\ fromhex h = inr (alert_0 alert).
Proof.
  unfold get_alert. destruct (contract_loaded self); cbn [negb];
    [|discriminate].
  destruct (fromhex sig_hash) as [e|b]; [discriminate|].
  unfold lbind, ledger, lret.
  destruct (getAlert ldg b) as [e|alert] eqn:Ha; [discriminate|].
  cbn [fst]. intros H. injection H as <-.
  exists (hex (alert_0 alert)), b, alert.
  split; [reflexivity|]. split; [apply lower_hex_hex|].
  split; [reflexivity|]. split; [exact Ha|apply fromhex_hex].
Qed.

(** X14. [register_alert] hands the contract the bytes the hash denotes: for
    a [sig_hash] of lower-case hexadecimal digits the first ledger operation
    is the contract function on bytes whose text is [sig_hash], half as many
    as it has digits (32 for a SHA-256 digest), with the address, the URI
    and the severity as they were passed. *)
Theorem register_alert_sends_decoded_hash (ldg : Ledger)
    (self : BlockchainClient) (sig_hash flagged_address ipfs_uri : string)
    (severity : Z) (log : list ledger_call) :
  contract_loaded self = true ->
  lower_hex sig_hash = true ->
  exists b calls,
    snd (register_alert ldg self sig_hash flagged_address ipfs_uri severity
           log)
    = (log ++ LFunction {| arg_sig_hash := b;
                           arg_flagged := flagged_address;
                           arg_ipfs_uri := ipfs_uri;
                           arg_severity := severity |} :: calls)%list
    /\ hex b = sig_hash
    /\ String.length sig_hash = (2 * String.length b)%nat.
Proof.
  intros Hc Hs.
  destruct (lower_hex_fromhex sig_hash Hs) as (b & Hb & Hhex & Hlen).
  destruct (register_alert_calls ldg self sig_hash flagged_address ipfs_uri
              severity log b Hc Hb) as (calls & Hcalls).
  exists b, calls. repeat split; assumption.
Qed.

(** ** The further properties on the sample collaborators *)

(** Two flagged requests on the empty store: two alerts, both linked. *)
Lemma intake_keeps_alerts_linked_witness :
  linked empty_world
  /\ linked (intake suspicious_env [sample_tx; gas_tx] empty_world)
  /\ List.length (alerts (intake suspicious_env [sample_tx; gas_tx]
                            empty_world)) = 2%nat.
Proof.
  assert (H : linked empty_world) by (intros a []).
  split; [exact H|]. split; [|reflexivity].
  exact (intake_keeps_alerts_linked suspicious_env [sample_tx; gas_tx]
           empty_world H).
Defined.

(** A flagged and a refused-alert request: one active alert, two suspicious
    transactions. *)
Lemma statistics_after_intake_witness :
  exists total fraud active accuracy w',
    Database.get_statistics alert_write_fails_env
      (intake alert_write_fails_env [sample_tx]
         (intake suspicious_env [sample_tx] empty_world))
    = (inr [("totalTx", VInt total);
            ("fraudDetected", VInt fraud);
            ("accuracy", accuracy);
            ("activeAlerts", VInt active)], w')
    /\ 0 <= active <= fraud
    /\ fraud <= total.
Proof.
  apply (statistics_after_intake alert_write_fails_env [sample_tx]
           (intake suspicious_env [sample_tx] empty_world));
    [vm_compute; discriminate|reflexivity|reflexivity|reflexivity].
Defined.

(** The same timestamped request twice: two alerts with one hash. *)
Lemma repeated_request_duplicates_alert_witness :
  exists t1 t2 a1 a2,
    transactions (intake suspicious_env [timestamped_tx; timestamped_tx]
                    empty_world) = [t1; t2]
    /\ alerts (intake suspicious_env [timestamped_tx; timestamped_tx]
                 empty_world) = [a1; a2]
    /\ get "sigHash" a1 = get "sigHash" a2.
Proof.
  assert (Hok : forall c doc, insert_error suspicious_env c doc = None)
    by (intros [] doc; reflexivity).
  destruct (repeated_request_duplicates_alert suspicious_env timestamped_tx
              empty_world (sample_prediction 0.95 "suspicious")
              eq_refl eq_refl eq_refl Hok)
    as (t1 & t2 & a1 & a2 & Ht & Ha & _ & _ & H1 & H2).
  exists t1, t2, a1, a2. split; [exact Ht|]. split; [exact Ha|].
  now rewrite H1, H2.
Defined.

(** The oracle raises: status 500, nothing stored. *)
Lemma failing_oracle_is_not_replaced_witness :
  exists w',
    process_transaction raising_oracle_env sample_tx empty_world
    = (inl {| status_code := 500; detail := "model file missing" |}, w')
    /\ transactions w' = []
    /\ alerts w' = [].
Proof.
  destruct (failing_oracle_is_not_replaced raising_oracle_env sample_tx
              empty_world "model file missing" eq_refl)
    as (_ & w' & Hrun & Ht & Ha & _).
  exists w'. repeat split; assumption.
Defined.

(** The transaction write is refused for a flagged request: no digest. *)
Lemma refused_transaction_stops_the_call_witness :
  exists w',
    process_transaction tx_write_fails_env sample_tx empty_world
    = (inl {| status_code := 500; detail := "connection refused" |}, w')
    /\ transactions w' = []
    /\ forall payload, ~ In (CallSha256 payload) (log w').
Proof.
  destruct (refused_transaction_stops_the_call tx_write_fails_env sample_tx
              empty_world (sample_prediction 0.95 "suspicious")
              "connection refused" eq_refl eq_refl)
    as (w' & Hrun & Ht & _ & Hlog & Hsha & _).
  exists w'. split; [exact Hrun|]. split; [exact Ht|].
  rewrite Hlog. exact Hsha.
Defined.

(** A normal request: the response reports the stored record. *)
Lemma success_response_reflects_store_witness :
  exists body w' t,
    process_transaction normal_env sample_tx empty_world = (inr body, w')
    /\ transactions w' = [t]
    /\ get "label" body = get "label" t
    /\ get "success" body = Some (VBool true).
Proof.
  destruct (success_response_reflects_store normal_env sample_tx empty_world
              (response sample_tx (sample_prediction 0.1 "normal") false None)
              (snd (process_transaction normal_env sample_tx empty_world))
              eq_refl)
    as (Hs & (t & Ht & _ & _ & Hl) & _).
  do 2 eexists. exists t. split; [reflexivity|].
  split; [exact Ht|]. split; [exact Hl|exact Hs].
Defined.

(** A flagged request, then the lookup of its hash: the stored alert. *)
Lemma stored_alert_is_found_witness :
  exists body,
    fst (Reads.get_alert_detail sample_find_error sample_id_text
           (signature_digest suspicious_env sample_tx empty_world
              (sample_prediction 0.95 "suspicious"))
           (snd (process_transaction suspicious_env sample_tx empty_world)))
    = inr body
    /\ get "_id" body = Some (VStr "id0")
    /\ get "txHash" body = Some (VStr "0xabc").
Proof.
  destruct (stored_alert_is_found suspicious_env sample_find_error
              sample_id_text sample_tx empty_world
              (sample_prediction 0.95 "suspicious")
              eq_refl eq_refl eq_refl eq_refl eq_refl)
    as [_ Hnew].
  destruct (Hnew (fun old (H : In old []) => match H with end))
    as (body & Hrun & Hbody & _ & Htx & _).
  exists body. split; [exact Hrun|]. split; [|exact Htx].
  rewrite Hbody. reflexivity.
Defined.

(** The hash [00ab] is read back as [00ab]. *)
Lemma get_alert_returns_queried_hash_witness :
  exists record,
    fst (get_alert sample_ledger sample_client "00ab" []) = inr record
    /\ get "sigHash" record = Some (VStr "00ab").
Proof.
  destruct (get_alert_returns_queried_hash sample_ledger sample_client
              "00ab" [] _ _ eq_refl eq_refl eq_refl eq_refl eq_refl)
    as (record & Hrun & Hs & _).
  exists record. rewrite Hrun. split; [reflexivity|exact Hs].
Defined.

(** The hash [00AB], in upper case: the hash returned decodes to the same
    two bytes. *)
Lemma get_alert_hash_decodes_witness :
  exists record h b,
    fst (get_alert sample_ledger sample_client "00AB" []) = inr record
    /\ get "sigHash" record = Some (VStr h)
    /\ fromhex "00AB" = inr b
    /\ fromhex h = inr b.
Proof.
  destruct (get_alert_hash_decodes sample_ledger sample_client "00AB" []
              _ eq_refl)
    as (h & b & alert & Hh & _ & Hb & Ha & Hd).
  eexists. exists h, b. split; [reflexivity|]. split; [exact Hh|].
  split; [exact Hb|]. injection Ha as <-. exact Hd.
Defined.

(** A four-digit hash: the contract function is called on two bytes. *)
Lemma register_alert_sends_decoded_hash_witness :
  exists b calls,
    snd (register_alert sample_ledger sample_client "00ab" "0x1"
           "ipfs://alert" 2 [])
    = LFunction {| arg_sig_hash := b;
                   arg_flagged := "0x1";
                   arg_ipfs_uri := "ipfs://alert";
                   arg_severity := 2 |} :: calls
    /\ String.length b = 2%nat.
Proof.
  destruct (register_alert_sends_decoded_hash sample_ledger sample_client
              "00ab" "0x1" "ipfs://alert" 2 [] eq_refl eq_refl)
    as (b & calls & Hrun & _ & Hlen).
  exists b, calls. split; [exact Hrun|]. simpl in Hlen. lia.
Defined.

(** A flagged request on a working store: the two writes, in order. *)
Lemma transaction_write_precedes_alert_write_witness :
  exists before,
    log (snd (process_transaction suspicious_env sample_tx empty_world))
    = (before
         ++ [CallInsert Transactions
               (transaction_document suspicious_env sample_tx empty_world
                  (sample_prediction 0.95 "suspicious"));
             CallSha256
               (canonical_bytes suspicious_env
                  (fraud_signature sample_tx
                     (intake_timestamp suspicious_env sample_tx empty_world)
                     (sample_prediction 0.95 "suspicious")));
             CallNow;
             CallInsert Alerts
               (alert_document suspicious_env sample_tx empty_world
                  (sample_prediction 0.95 "suspicious"))])%list.
Proof.
  destruct (transaction_write_precedes_alert_write suspicious_env sample_tx
              empty_world (sample_prediction 0.95 "suspicious")
              eq_refl eq_refl eq_refl)
    as (before & Hlog & _).
  exists before. exact Hlog.
Defined.

(** ** Alerts and suspicious transactions, one for one *)

Lemma exact_balance_step (env : Env) (tx : Transaction) (w : World) :
  (forall doc, insert_error env Alerts doc = None) ->
  count_matching status_active (alerts w)
  = count_matching labelled_suspicious (transactions w) ->
  count_matching status_active
    (alerts (snd (process_transaction env tx w)))
  = count_matching labelled_suspicious
      (transactions (snd (process_transaction env tx w))).
Proof.
  intros Hno Hw. rewrite process_transaction_wraps.
  destruct (assessment env tx w) as [e|p] eqn:Hp.
  - rewrite (process_transaction_try_oracle_error env tx w e Hp). exact Hw.
  - rewrite (process_transaction_try_run env tx w p Hp). cbv zeta.
    destruct (insert_error env Transactions _); [exact Hw|].
    destruct (String.eqb (label p) "suspicious") eqn:Hl.
    + rewrite Hno. cbn [snd transactions alerts].
      rewrite !count_matching_app, Hw. f_equal.
      apply String.eqb_eq in Hl.
      unfold count_matching, labelled_suspicious, status_active. simpl.
      now rewrite Hl.
    + cbn [snd transactions alerts]. rewrite count_matching_app, Hw.
      unfold count_matching at 3. unfold labelled_suspicious. simpl.
      rewrite Hl. simpl. lia.
Qed.

(** X16. On a store that never refuses an alert write, alerts and suspicious
    transactions stay one for one: when the two counts agree to begin with
    (as in an empty store), then after any sequence of intake calls
    [get_statistics] reports [activeAlerts = fraudDetected]. *)
Theorem alerts_match_suspicious_transactions (env : Env)
    (txs : list Transaction) (w : World) :
  (forall doc, insert_error env Alerts doc = None) ->
  count_matching status_active (alerts w)
  = count_matching labelled_suspicious (transactions w) ->
  count_error env Transactions all_documents = None ->
  count_error env Transactions labelled_suspicious = None ->
  count_error env Alerts status_active = None ->
  exists total fraud accuracy w',
    Database.get_statistics env (intake env txs w)
    = (inr [("totalTx", VInt total);
            ("fraudDetected", VInt fraud);
            ("accuracy", accuracy);
            ("activeAlerts", VInt fraud)], w').
Proof.
  intros Hno Hw H1 H2 H3.
  assert (Hb : count_matching status_active (alerts (intake env txs w))
               = count_matching labelled_suspicious
                   (transactions (intake env txs w))).
  { revert w Hw. induction txs as [|tx txs IH]; intros w Hw; simpl;
      [exact Hw|]. apply IH. now apply exact_balance_step. }
  destruct (get_statistics_run env (intake env txs w)) as (w' & _ & _ & Hrun).
  rewrite H1, H2, H3 in Hrun. cbv zeta in Hrun. rewrite Hb in Hrun.
  do 3 eexists. exists w'. exact Hrun.
Qed.

(** Three requests, all flagged: three alerts for three suspicious
    transactions. *)
Lemma alerts_match_suspicious_transactions_witness :
  exists total fraud accuracy w',
    Database.get_statistics suspicious_env
      (intake suspicious_env [sample_tx; gas_tx; timestamped_tx] empty_world)
    = (inr [("totalTx", VInt total);
            ("fraudDetected", VInt fraud);
            ("accuracy", accuracy);
            ("activeAlerts", VInt fraud)], w').
Proof.
  apply (alerts_match_suspicious_transactions suspicious_env
           [sample_tx; gas_tx; timestamped_tx] empty_world);
    [intros doc; reflexivity|reflexivity|reflexivity|reflexivity
    |reflexivity].
Defined.

(** ** Severity grows with the risk score *)

Lemma sfleb_four_fifths_trans (x y : spec_float) :
  SFleb (S754_finite false 7205759403792794 (-53)) x = true ->
  SFleb x y = true ->
  SFleb (S754_finite false 7205759403792794 (-53)) y = true.
Proof.
  unfold SFleb, SFcompare.
  destruct x as [sx|sx| |sx mx ex], y as [sy|sy| |sy my ey];
    try destruct sx; try destruct sy; try discriminate; try reflexivity.
  change (PosDef.Pos.compare_cont Eq 7205759403792794 mx)
    with (Pos.compare 7205759403792794 mx).
  change (PosDef.Pos.compare_cont Eq mx my) with (Pos.compare mx my).
  change (PosDef.Pos.compare_cont Eq 7205759403792794 my)
    with (Pos.compare 7205759403792794 my).
  rewrite !Pos2Z.inj_compare.
  destruct (Z.compare_spec (-53) ex) as [E1|E1|E1];
    destruct (Z.compare_spec ex ey) as [E2|E2|E2];
    destruct (Z.compare_spec (-53) ey) as [E3|E3|E3];
    try discriminate; try reflexivity; try lia.
  destruct (Z.compare_spec 7205759403792794 (Zpos mx)) as [F1|F1|F1];
    destruct (Z.compare_spec (Zpos mx) (Zpos my)) as [F2|F2|F2];
    destruct (Z.compare_spec 7205759403792794 (Zpos my)) as [F3|F3|F3];
    try discriminate; try reflexivity; intros _ _; exfalso; lia.
Qed.

(** X17. Severity never decreases when the risk score grows: for two scores
    with [r1 <= r2] the tier of [r1] is at most the tier of [r2]. *)
Theorem severity_is_monotone (r1 r2 : float) :
  (r1 <=? r2)%float = true -> severity r1 <= severity r2.
Proof.
  intros H. unfold severity.
  destruct (0.8 <=? r1)%float eqn:H1; destruct (0.8 <=? r2)%float eqn:H2;
    try lia.
  rewrite leb_spec, prim2sf_four_fifths in H1, H2. rewrite leb_spec in H.
  rewrite (sfleb_four_fifths_trans _ _ H1 H) in H2. discriminate H2.
Qed.

(** The scores 0.79 and 0.95. *)
Lemma severity_is_monotone_witness : severity 0.79 <= severity 0.95.
Proof. apply severity_is_monotone. reflexivity. Defined.
